(** * The Spotify token lifecycle of [spotify_mcp/auth.py]

    A shallow embedding of [src/spotify-mcp/src/spotify_mcp/auth.py]:
    the credential file, the callback handler, the two token exchanges and
    [get_access_token], with the theorems that settle what the design
    document says about them.

    Python values are modelled as follows.
    - [str] is [string]: the code points 0..255.  The request path of
      [BaseHTTPRequestHandler] is decoded as ISO-8859-1, and tokens are
      ASCII, so nothing the code handles falls outside.
    - A token set is a [dict] whose members are strings, integers, booleans
      or [None]: the shape of the token endpoint's replies.  A [dict] is an
      association list in insertion order, which is the order [json.dumps]
      writes; keys are unique.
    - Exceptions are the [Raise] results of a state-and-error monad over a
      [World] that holds the credential file, the class attribute
      [_CallbackHandler.auth_code], the listening socket, the handler
      threads and the trace of what the calls did.
    - What the code cannot decide is given by an [Env]: the environment
      variables, the request the browser sends back (or none within the
      120 seconds), the answers of the token endpoint and of the API, and
      what [urlsplit] makes of a bracketed host. *)

From Stdlib Require Import PrimFloat.
From Stdlib Require Import String Ascii ZArith List Bool Lia Decimal DecimalString.
From Stdlib Require DecimalFacts DecimalPos DecimalZ.
Import ListNotations.

Local Open Scope string_scope.
Local Open Scope list_scope.

(** ** Characters and strings *)

Definition dquote : ascii := Eval cbv in ascii_of_nat 34.
Definition backslash : ascii := Eval cbv in ascii_of_nat 92.
Definition chr_bs : ascii := Eval cbv in ascii_of_nat 8.
Definition chr_ff : ascii := Eval cbv in ascii_of_nat 12.
Definition chr_lf : ascii := Eval cbv in ascii_of_nat 10.
Definition chr_cr : ascii := Eval cbv in ascii_of_nat 13.
Definition chr_tab : ascii := Eval cbv in ascii_of_nat 9.

Definition ascii_eqb (a b : ascii) : bool := Ascii.eqb a b.

(** [len(s) == 0] *)
Definition str_empty (s : string) : bool :=
  match s with EmptyString => true | String _ _ => false end.

(** [s.split(sep, 1)] at a one-character separator: the text before the first
    [sep], and the text after it when there is one. *)
Fixpoint split_first (sep : ascii) (s : string) : string * option string :=
  match s with
  | EmptyString => (EmptyString, None)
  | String c r =>
      if ascii_eqb c sep then (EmptyString, Some r)
      else let '(a, b) := split_first sep r in (String c a, b)
  end.

(** [s.split(sep)] at a one-character separator. *)
Fixpoint split_on (sep : ascii) (s : string) : list string :=
  match s with
  | EmptyString => [EmptyString]
  | String c r =>
      if ascii_eqb c sep then EmptyString :: split_on sep r
      else match split_on sep r with
           | [] => [String c EmptyString]
           | h :: t => String c h :: t
           end
  end.

(** [s.replace(a, b)] for single characters. *)
Fixpoint replace_char (a b : ascii) (s : string) : string :=
  match s with
  | EmptyString => EmptyString
  | String c r => String (if ascii_eqb c a then b else c) (replace_char a b r)
  end.

(** ** Python values and dicts *)

Inductive value : Type :=
| VNone
| VBool (b : bool)
| VInt (z : Z)
| VStr (s : string).

Definition dict : Type := list (string * value).

(** [d.get(k)] *)
Fixpoint dict_get {A : Type} (k : string) (d : list (string * A)) : option A :=
  match d with
  | [] => None
  | (k', v) :: r => if String.eqb k k' then Some v else dict_get k r
  end.

(** [k in d] *)
Definition dict_has {A : Type} (k : string) (d : list (string * A)) : bool :=
  match dict_get k d with Some _ => true | None => false end.

(** [d[k] = v]: an existing key keeps its place, a new one goes last. *)
Fixpoint dict_set {A : Type} (k : string) (v : A) (d : list (string * A))
  : list (string * A) :=
  match d with
  | [] => [(k, v)]
  | (k', v') :: r =>
      if String.eqb k k' then (k', v) :: r else (k', v') :: dict_set k v r
  end.

Definition keys {A : Type} (d : list (string * A)) : list string := map fst d.

(** [dict(pairs)] *)
Definition dict_of_pairs {A : Type} (pairs : list (string * A))
  : list (string * A) :=
  fold_left (fun d kv => dict_set (fst kv) (snd kv) d) pairs [].

(** [str(v)], as an f-string formats a value. *)
Definition py_str (v : value) : string :=
  match v with
  | VNone => "None"
  | VBool true => "True"
  | VBool false => "False"
  | VInt z => NilZero.string_of_int (Z.to_int z)
  | VStr s => s
  end.

(** ** [json.dumps]

    The default encoder: [ensure_ascii=True], separators [", "] and [": "]. *)

Definition hex_digit (n : nat) : ascii :=
  nth n ["0"; "1"; "2"; "3"; "4"; "5"; "6"; "7"; "8"; "9";
         "a"; "b"; "c"; "d"; "e"; "f"]%char "0"%char.

(** [ESCAPE_DCT] of [json.encoder], then [\uXXXX] for what is left outside
    the printable ASCII range. *)
Definition escape_char (c : ascii) : string :=
  if ascii_eqb c dquote then String backslash (String dquote EmptyString)
  else if ascii_eqb c backslash then String backslash (String backslash EmptyString)
  else if ascii_eqb c chr_lf then String backslash "n"
  else if ascii_eqb c chr_cr then String backslash "r"
  else if ascii_eqb c chr_tab then String backslash "t"
  else if ascii_eqb c chr_bs then String backslash "b"
  else if ascii_eqb c chr_ff then String backslash "f"
  else
    let n := nat_of_ascii c in
    if (Nat.leb 32 n && Nat.leb n 126)%bool then String c EmptyString
    else String backslash
           (String "u" (String "0" (String "0"
              (String (hex_digit (Nat.div n 16))
                 (String (hex_digit (Nat.modulo n 16)) EmptyString))))).

Fixpoint escape (s : string) : string :=
  match s with
  | EmptyString => EmptyString
  | String c r => escape_char c ++ escape r
  end.

(** [py_encode_basestring_ascii] *)
Definition encode_string (s : string) : string :=
  String dquote (escape s ++ String dquote EmptyString).

Definition encode_value (v : value) : string :=
  match v with
  | VNone => "null"
  | VBool true => "true"
  | VBool false => "false"
  | VInt z => NilZero.string_of_int (Z.to_int z)
  | VStr s => encode_string s
  end.

Definition encode_member (kv : string * value) : string :=
  encode_string (fst kv) ++ ": " ++ encode_value (snd kv).

Fixpoint encode_members (d : dict) : string :=
  match d with
  | [] => EmptyString
  | [kv] => encode_member kv
  | kv :: r => encode_member kv ++ ", " ++ encode_members r
  end.

Definition json_dumps (d : dict) : string :=
  "{" ++ encode_members d ++ "}".

(** ** [json.loads]

    The decoder of [json.decoder] and [json.scanner] on the texts whose
    top-level value is an object with members of the kinds above.  [None]
    stands for the decoder raising, and for a text outside that fragment (a
    nested value, a float, a code point above 255). *)

Definition is_ws (c : ascii) : bool :=
  (ascii_eqb c " " || ascii_eqb c chr_tab || ascii_eqb c chr_lf
   || ascii_eqb c chr_cr)%bool.

Fixpoint skip_ws (s : string) : string :=
  match s with
  | String c r => if is_ws c then skip_ws r else s
  | EmptyString => s
  end.

Definition hex_value (c : ascii) : option nat :=
  let n := nat_of_ascii c in
  if (Nat.leb 48 n && Nat.leb n 57)%bool then Some (n - 48)
  else if (Nat.leb 97 n && Nat.leb n 102)%bool then Some (n - 87)
  else if (Nat.leb 65 n && Nat.leb n 70)%bool then Some (n - 55)
  else None.

(** [BACKSLASH] of [json.decoder] *)
Definition unescape_char (e : ascii) : option ascii :=
  if ascii_eqb e dquote then Some dquote
  else if ascii_eqb e backslash then Some backslash
  else if ascii_eqb e "/" then Some "/"%char
  else if ascii_eqb e "b" then Some chr_bs
  else if ascii_eqb e "f" then Some chr_ff
  else if ascii_eqb e "n" then Some chr_lf
  else if ascii_eqb e "r" then Some chr_cr
  else if ascii_eqb e "t" then Some chr_tab
  else None.

(** [json.decoder.scanstring] from just after the opening quote: the decoded
    text and what follows the closing quote.  A raw control character is an
    error ([strict=True]). *)
Fixpoint scanstring (s : string) : option (string * string) :=
  match s with
  | EmptyString => None
  | String c r =>
      if ascii_eqb c dquote then Some (EmptyString, r)
      else if ascii_eqb c backslash then
        match r with
        | EmptyString => None
        | String e r1 =>
            if ascii_eqb e "u" then
              match r1 with
              | String h1 (String h2 (String h3 (String h4 r2))) =>
                  match hex_value h1, hex_value h2, hex_value h3, hex_value h4 with
                  | Some 0, Some 0, Some a, Some b =>
                      match scanstring r2 with
                      | Some (t, rest) =>
                          Some (String (ascii_of_nat (16 * a + b)) t, rest)
                      | None => None
                      end
                  | _, _, _, _ => None
                  end
              | _ => None
              end
            else
              match unescape_char e with
              | Some ch =>
                  match scanstring r1 with
                  | Some (t, rest) => Some (String ch t, rest)
                  | None => None
                  end
              | None => None
              end
        end
      else if Nat.ltb (nat_of_ascii c) 32 then None
      else
        match scanstring r with
        | Some (t, rest) => Some (String c t, rest)
        | None => None
        end
  end.

Definition digit_of_char (c : ascii) (d : uint) : option uint :=
  uint_of_char c (Some d).

Definition is_digit (c : ascii) : bool :=
  let n := nat_of_ascii c in (Nat.leb 48 n && Nat.leb n 57)%bool.

(** The longest run of decimal digits at the head of [s]. *)
Fixpoint scan_digits (s : string) : uint * string :=
  match s with
  | EmptyString => (Nil, s)
  | String c r =>
      if is_digit c then
        let '(d, rest) := scan_digits r in
        match digit_of_char c d with
        | Some d' => (d', rest)
        | None => (Nil, s)
        end
      else (Nil, s)
  end.

(** A float is outside the fragment: [NUMBER_RE] would take a fraction or an
    exponent here. *)
Definition starts_float_tail (s : string) : bool :=
  match s with
  | String c _ => (ascii_eqb c "." || ascii_eqb c "e" || ascii_eqb c "E")%bool
  | EmptyString => false
  end.

(** The integer part of [NUMBER_RE]: [0|[1-9][0-9]*]. *)
Definition scan_nat (s : string) : option (Z * string) :=
  match s with
  | String c r =>
      if ascii_eqb c "0" then
        if starts_float_tail r then None else Some (0%Z, r)
      else if is_digit c then
        let '(d, rest) := scan_digits s in
        if starts_float_tail rest then None else Some (Z.of_uint d, rest)
      else None
  | EmptyString => None
  end.

(** [s.startswith(p)], with what follows [p]. *)
Fixpoint strip_prefix (p s : string) : option string :=
  match p with
  | EmptyString => Some s
  | String a p' =>
      match s with
      | String b s' => if ascii_eqb a b then strip_prefix p' s' else None
      | EmptyString => None
      end
  end.

(** [scan_once] of [json.scanner] on the member kinds of the fragment. *)
Definition scan_value (s : string) : option (value * string) :=
  match s with
  | EmptyString => None
  | String c r =>
      if ascii_eqb c dquote then
        match scanstring r with
        | Some (t, rest) => Some (VStr t, rest)
        | None => None
        end
      else if ascii_eqb c "n" then
        match strip_prefix "ull" r with
        | Some rest => Some (VNone, rest)
        | None => None
        end
      else if ascii_eqb c "t" then
        match strip_prefix "rue" r with
        | Some rest => Some (VBool true, rest)
        | None => None
        end
      else if ascii_eqb c "f" then
        match strip_prefix "alse" r with
        | Some rest => Some (VBool false, rest)
        | None => None
        end
      else if ascii_eqb c "-" then
        match scan_nat r with
        | Some (n, rest) => Some (VInt (- n), rest)
        | None => None
        end
      else
        match scan_nat s with
        | Some (n, rest) => Some (VInt n, rest)
        | None => None
        end
  end.

(** The loop of [JSONObject], entered just after the quote that opens a
    property name; it returns the pairs in the order read and what follows
    the closing brace. *)
Fixpoint scan_members (fuel : nat) (s : string)
  : option (list (string * value) * string) :=
  match fuel with
  | O => None
  | S fuel' =>
      match scanstring s with
      | None => None
      | Some (key, s1) =>
          match skip_ws s1 with
          | String c1 s2 =>
              if ascii_eqb c1 ":" then
                match scan_value (skip_ws s2) with
                | None => None
                | Some (v, s3) =>
                    match skip_ws s3 with
                    | String c2 s4 =>
                        if ascii_eqb c2 "}" then Some ([(key, v)], s4)
                        else if ascii_eqb c2 "," then
                          match skip_ws s4 with
                          | String c3 s5 =>
                              if ascii_eqb c3 dquote then
                                match scan_members fuel' s5 with
                                | Some (ps, rest) => Some ((key, v) :: ps, rest)
                                | None => None
                                end
                              else None
                          | EmptyString => None
                          end
                        else None
                    | EmptyString => None
                    end
                end
              else None
          | EmptyString => None
          end
      end
  end.

(** [JSONObject] from just after the opening brace. *)
Definition scan_object (s : string) : option (dict * string) :=
  match skip_ws s with
  | String c r =>
      if ascii_eqb c "}" then Some ([], r)
      else if ascii_eqb c dquote then
        match scan_members (String.length r) r with
        | Some (ps, rest) => Some (dict_of_pairs ps, rest)
        | None => None
        end
      else None
  | EmptyString => None
  end.

(** [JSONDecoder.decode]: leading white space, one value, trailing white
    space, and nothing else. *)
Definition json_loads (s : string) : option dict :=
  match skip_ws s with
  | String c r =>
      if ascii_eqb c "{" then
        match scan_object r with
        | Some (d, rest) =>
            if str_empty (skip_ws rest) then Some d else None
        | None => None
        end
      else None
  | EmptyString => None
  end.

(** ** [urllib.parse]

    [urlsplit], which [urlparse] runs first, as CPython 3.11 has it.  The
    steps that cut the URL come first; the test of the network location,
    which can raise, comes with the handler below. *)

(** [s.lstrip(chars)], for the characters a test picks. *)
Fixpoint lstrip (p : ascii -> bool) (s : string) : string :=
  match s with
  | EmptyString => EmptyString
  | String c r => if p c then lstrip p r else s
  end.

(** [s.replace(c, "")] for every character [c] a test picks. *)
Fixpoint remove_chars (p : ascii -> bool) (s : string) : string :=
  match s with
  | EmptyString => EmptyString
  | String c r => if p c then remove_chars p r else String c (remove_chars p r)
  end.

(** [c in s] *)
Fixpoint str_contains (c : ascii) (s : string) : bool :=
  match s with
  | EmptyString => false
  | String c' r => (ascii_eqb c' c || str_contains c r)%bool
  end.

(** [all(p(c) for c in s)] *)
Fixpoint str_forallb (p : ascii -> bool) (s : string) : bool :=
  match s with
  | EmptyString => true
  | String c r => (p c && str_forallb p r)%bool
  end.

(** The text before the first character a test picks, and the text from
    that character on. *)
Fixpoint break_at (p : ascii -> bool) (s : string) : string * string :=
  match s with
  | EmptyString => (EmptyString, EmptyString)
  | String c r =>
      if p c then (EmptyString, s)
      else let '(a, b) := break_at p r in (String c a, b)
  end.

Definition code_between (lo hi : nat) (c : ascii) : bool :=
  (Nat.leb lo (nat_of_ascii c) && Nat.leb (nat_of_ascii c) hi)%bool.

(** [_WHATWG_C0_CONTROL_OR_SPACE]: the code points 0 to 32. *)
Definition is_c0_control_or_space (c : ascii) : bool := code_between 0 32 c.

(** [_UNSAFE_URL_BYTES_TO_REMOVE]: tab, carriage return and line feed. *)
Definition is_unsafe_url_byte (c : ascii) : bool :=
  (ascii_eqb c chr_tab || ascii_eqb c chr_cr || ascii_eqb c chr_lf)%bool.

(** [c.isascii() and c.isalpha()] *)
Definition is_ascii_alpha (c : ascii) : bool :=
  (code_between 65 90 c || code_between 97 122 c)%bool.

(** [c in scheme_chars]: the ASCII letters and digits, [+], [-] and [.]. *)
Definition is_scheme_char (c : ascii) : bool :=
  (is_ascii_alpha c || code_between 48 57 c
   || ascii_eqb c "+" || ascii_eqb c "-" || ascii_eqb c ".")%bool.

(** [s.lower()] on scheme characters. *)
Definition lower_char (c : ascii) : ascii :=
  if code_between 65 90 c then ascii_of_nat (nat_of_ascii c + 32) else c.

Fixpoint lower (s : string) : string :=
  match s with
  | EmptyString => EmptyString
  | String c r => String (lower_char c) (lower r)
  end.

(** [c in "/?#"], the characters that end the network location. *)
Definition is_netloc_delimiter (c : ascii) : bool :=
  (ascii_eqb c "/" || ascii_eqb c "?" || ascii_eqb c "#")%bool.

Record SplitResult : Type := mkSplitResult {
  url_scheme : string;
  url_netloc : string;
  url_path : string;
  url_query : string;
  url_fragment : string
}.

(** The scheme, when the text before the first [:] is not empty, starts
    with an ASCII letter and holds scheme characters only; and the rest. *)
Definition split_scheme (url : string) : string * string :=
  match split_first ":" url with
  | (String c r, Some rest) =>
      if (is_ascii_alpha c && str_forallb is_scheme_char (String c r))%bool
      then (lower (String c r), rest)
      else (EmptyString, url)
  | _ => (EmptyString, url)
  end.

(** [_splitnetloc(url, 2)] when [url[:2] == "//"]: the network location
    runs to the first of [/], [?] and [#].  Any other URL has none. *)
Definition split_netloc (url : string) : string * string :=
  match url with
  | String c1 (String c2 r) =>
      if (ascii_eqb c1 "/" && ascii_eqb c2 "/")%bool
      then break_at is_netloc_delimiter r
      else (EmptyString, url)
  | _ => (EmptyString, url)
  end.

(** [url, rest = url.split(sep, 1)] when [sep in url]. *)
Definition cut (sep : ascii) (url : string) : string * string :=
  match split_first sep url with
  | (a, Some b) => (a, b)
  | (a, None) => (a, EmptyString)
  end.

(** What [urlsplit] returns when it returns. *)
Definition cut_url (url : string) : SplitResult :=
  let url := lstrip is_c0_control_or_space url in
  let url := remove_chars is_unsafe_url_byte url in
  let '(scheme, url) := split_scheme url in
  let '(netloc, url) := split_netloc url in
  let '(url, fragment) := cut "#" url in
  let '(url, query) := cut "?" url in
  mkSplitResult scheme netloc url query fragment.

(** [urlparse(url).query] when [urlparse] returns. *)
Definition urlparse_query (url : string) : string := url_query (cut_url url).

Section Auth.

(** [urllib.parse.unquote], the percent-decoding of a name or a value, is
    left open: nothing below depends on how it decodes. *)
Variable unquote : string -> string.

(** The body of the loop of [parse_qsl], with [keep_blank_values=False] and
    [strict_parsing=False]: an empty field, a field without [=] and a field
    with an empty value are skipped. *)
Definition parse_field (name_value : string) : list (string * string) :=
  if str_empty name_value then []
  else
    match split_first "=" name_value with
    | (_, None) => []
    | (n, Some v) =>
        if str_empty v then []
        else [(unquote (replace_char "+" " " n), unquote (replace_char "+" " " v))]
    end.

Definition parse_qsl (qs : string) : list (string * string) :=
  flat_map parse_field (split_on "&" qs).

(** One turn of the loop of [parse_qs]. *)
Definition parse_qs_add (parsed_result : list (string * list string))
  (nv : string * string) : list (string * list string) :=
  match dict_get (fst nv) parsed_result with
  | Some vs => dict_set (fst nv) (vs ++ [snd nv]) parsed_result
  | None => dict_set (fst nv) [snd nv] parsed_result
  end.

Definition parse_qs (qs : string) : list (string * list string) :=
  fold_left parse_qs_add (parse_qsl qs) [].

(** ** Constants of the module *)

Definition SPOTIFY_AUTH_URL : string := "https://accounts.spotify.com/authorize".
Definition SPOTIFY_TOKEN_URL : string := "https://accounts.spotify.com/api/token".
Definition REDIRECT_URI : string := "http://127.0.0.1:8888/callback".
Definition SCOPES : string :=
  "user-read-currently-playing playlist-modify-public playlist-modify-private".
Definition API_ME_URL : string := "https://api.spotify.com/v1/me".

(** ** The world the module runs in *)

Inductive exn : Type :=
| RuntimeError (msg : string)
| KeyError (key : string)
| IndexError
| HTTPStatusError (status : Z)
| JSONDecodeError
| OSError (msg : string)
| URLValueError (msg : string).

Inductive result (A : Type) : Type :=
| Ok (a : A)
| Raise (e : exn).
#[global] Arguments Ok {A} a.
#[global] Arguments Raise {A} e.

(** What the callback handler sends back. *)
Record HttpReply : Type := mkReply {
  reply_status : Z;
  reply_headers : list (string * string);
  reply_body : string
}.

(** What the token endpoint sends back. *)
Record Response : Type := mkResponse {
  status_code : Z;
  text : string
}.

(** What a call does besides computing: the port bound, the handler thread
    started, the browser opened at [url?params], a GET request answered by
    the handler, the handler thread ended, [thread.join] returned (with the
    thread finished or not), the listening socket closed, a POST to the
    token endpoint, a GET to the API, and the credential file written. *)
Inductive event : Type :=
| EvBind
| EvThreadStart
| EvBrowser (url : string) (params : list (string * string))
| EvRequest (path : string) (reply : HttpReply)
| EvThreadExit
| EvJoin (finished : bool)
| EvServerClose
| EvPost (url : string) (data : dict) (auth : string * string)
| EvGet (url : string) (authorization : string)
| EvWrite (data : string).

(** The state the module reads and writes: the credential file at
    [TOKEN_PATH] ([None] when it does not exist), the class attribute
    [_CallbackHandler.auth_code], whether port 8888 is bound, the handler
    threads that have not finished, and the trace of effects. *)
Record World : Type := mkWorld {
  token_file : option string;
  auth_code : option string;
  listening : bool;
  live_threads : nat;
  trace : list event
}.

(** What the module does not decide: the environment variables, the one GET
    request that reaches the listener within the 120 seconds of the join
    ([None] when none does), the provider's token endpoint, the status the
    API answers the probe with, and what the interpreter's
    [_check_bracketed_netloc] makes of a network location with both
    brackets ([None] when it returns, the message of its [ValueError] when
    it raises; it asks the [ipaddress] module). *)
Record Env : Type := mkEnv {
  environ : string -> option string;
  incoming : option string;
  token_endpoint : dict -> string * string -> Response;
  api_me : string -> Z;
  check_bracketed_netloc : string -> option string
}.

Definition M (A : Type) : Type := World -> result A * World.

Definition ret {A : Type} (a : A) : M A := fun w => (Ok a, w).

Definition raise {A : Type} (e : exn) : M A := fun w => (Raise e, w).

Definition bind {A B : Type} (m : M A) (k : A -> M B) : M B :=
  fun w =>
    match m w with
    | (Ok a, w') => k a w'
    | (Raise e, w') => (Raise e, w')
    end.

Notation "x <- m ;; k" := (bind m (fun x => k))
  (at level 61, m at next level, right associativity).
Notation "m ;;; k" := (bind m (fun _ => k))
  (at level 61, right associativity).

Definition emit (e : event) : M unit :=
  fun w => (Ok tt, mkWorld (token_file w) (auth_code w) (listening w)
                     (live_threads w) (trace w ++ [e])).

Definition set_auth_code (c : option string) : M unit :=
  fun w => (Ok tt, mkWorld (token_file w) c (listening w)
                     (live_threads w) (trace w)).

Definition get_auth_code : M (option string) :=
  fun w => (Ok (auth_code w), w).

(** ** The credential file

    [Path.write_text] opens the file for writing, which truncates it, and
    writes the text when the file is closed; the two steps are kept apart so
    that the states a reader can meet in between are in the model. *)

Inductive fs_op : Type :=
| OpTruncate
| OpWrite (data : string).

Definition apply_fs_op (f : option string) (op : fs_op) : option string :=
  match op with
  | OpTruncate => Some EmptyString
  | OpWrite data =>
      Some (match f with Some old => (old ++ data)%string | None => data end)
  end.

Definition write_text_ops (data : string) : list fs_op :=
  [OpTruncate; OpWrite data].


Definition write_text (data : string) : M unit :=
  fun w => (Ok tt, mkWorld (fold_left apply_fs_op (write_text_ops data) (token_file w))
                     (auth_code w) (listening w) (live_threads w)
                     (trace w ++ [EvWrite data])).


Definition _save_tokens (tokens : dict) : M unit :=
  write_text (json_dumps tokens).

Definition _load_tokens : M (option dict) :=
  fun w =>
    match token_file w with
    | Some content =>
        match json_loads content with
        | Some d => (Ok (Some d), w)
        | None => (Raise JSONDecodeError, w)
        end
    | None => (Ok None, w)
    end.

(** ** [_get_credentials] *)

Definition MISSING_CREDENTIALS : string :=
  "SPOTIFY_CLIENT_ID and SPOTIFY_CLIENT_SECRET environment variables must be set.".

(** [not s] for an optional string: absent or empty. *)
Definition falsy (s : option string) : bool :=
  match s with
  | None => true
  | Some t => str_empty t
  end.

Definition _get_credentials (env : Env) : M (string * string) :=
  let client_id := environ env "SPOTIFY_CLIENT_ID" in
  let client_secret := environ env "SPOTIFY_CLIENT_SECRET" in
  if (falsy client_id || falsy client_secret)%bool
  then raise (RuntimeError MISSING_CREDENTIALS)
  else
    match client_id, client_secret with
    | Some id, Some secret => ret (id, secret)
    | _, _ => raise (RuntimeError MISSING_CREDENTIALS)
    end.

(** ** [_CallbackHandler.do_GET] *)

Definition SUCCESS_PAGE : string :=
  "<h1>Authorization successful!</h1><p>You can close this tab.</p>".

Definition failure_page (error : string) : string :=
  "<h1>Authorization failed: " ++ error ++ "</h1>".

Definition html_reply (status : Z) (body : string) : HttpReply :=
  mkReply status [("Content-Type", "text/html")] body.

Definition INVALID_IPV6_URL : string := "Invalid IPv6 URL".

(** The test [urlsplit] makes of the network location: one bracket without
    the other is refused, both are handed to [_check_bracketed_netloc].
    [_checknetloc], which comes last, refuses nothing that is made of the
    code points 0..255. *)
Definition netloc_error (env : Env) (netloc : string) : option string :=
  let opening := str_contains "[" netloc in
  let closing := str_contains "]" netloc in
  if (opening && negb closing || closing && negb opening)%bool
  then Some INVALID_IPV6_URL
  else if (opening && closing)%bool then check_bracketed_netloc env netloc
  else None.

(** [urlsplit(url)]: an empty network location, which is what a URL that
    does not start with [//] has, holds no bracket. *)
Definition urlsplit (env : Env) (url : string) : result SplitResult :=
  let url := lstrip is_c0_control_or_space url in
  let url := remove_chars is_unsafe_url_byte url in
  let '(scheme, url) := split_scheme url in
  let '(netloc, url) := split_netloc url in
  match netloc_error env netloc with
  | Some msg => Raise (URLValueError msg)
  | None =>
      let '(url, fragment) := cut "#" url in
      let '(url, query) := cut "?" url in
      Ok (mkSplitResult scheme netloc url query fragment)
  end.

(** [urlparse(url)], of which the handler reads the query only. *)
Definition urlparse (env : Env) (url : string) : M SplitResult :=
  fun w => (urlsplit env url, w).

Definition do_GET (env : Env) (path : string) : M HttpReply :=
  parts <- urlparse env path ;;
  let query := parse_qs (url_query parts) in
  match dict_get "code" query with
  | Some codes =>
      match codes with
      | code :: _ =>
          set_auth_code (Some code) ;;;
          ret (html_reply 200 SUCCESS_PAGE)
      | [] => raise IndexError
      end
  | None =>
      match (match dict_get "error" query with
             | Some errors => errors
             | None => ["unknown"]
             end) with
      | error :: _ => ret (html_reply 400 (failure_page error))
      | [] => raise IndexError
      end
  end.

(** ** The listener and its thread *)

Definition TIMED_OUT_OR_FAILED : string := "Authorization timed out or failed.".

Definition auth_params (client_id : string) : list (string * string) :=
  [("response_type", "code"); ("client_id", client_id);
   ("scope", SCOPES); ("redirect_uri", REDIRECT_URI)].

(** [HTTPServer(("127.0.0.1", 8888), _CallbackHandler)]: binds the port, or
    fails when it is already bound. *)
Definition HTTPServer_bind : M unit :=
  fun w =>
    if listening w then (Raise (OSError "Address already in use"), w)
    else (Ok tt, mkWorld (token_file w) (auth_code w) true
                   (live_threads w) (trace w ++ [EvBind])).

(** [thread.start()] *)
Definition thread_start : M unit :=
  fun w => (Ok tt, mkWorld (token_file w) (auth_code w) (listening w)
                     (S (live_threads w)) (trace w ++ [EvThreadStart])).

Definition thread_exit : M unit :=
  fun w => (Ok tt, mkWorld (token_file w) (auth_code w) (listening w)
                     (Nat.pred (live_threads w)) (trace w ++ [EvThreadExit])).

(** [server.handle_request], the target of the thread, once a GET request has
    arrived: [do_GET] answers it and the thread ends.  An exception of the
    handler stays in the thread, and no reply is sent. *)
Definition handle_request (env : Env) (path : string) : M unit :=
  fun w =>
    match do_GET env path w with
    | (Ok reply, w') => (emit (EvRequest path reply) ;;; thread_exit) w'
    | (Raise _, w') => thread_exit w'
    end.

(** [thread.join(timeout=120)]: it returns when the thread has served the
    request, or after the 120 seconds with the thread still waiting. *)
Definition thread_join (env : Env) : M unit :=
  match incoming env with
  | Some path => handle_request env path ;;; emit (EvJoin true)
  | None => emit (EvJoin false)
  end.

(** Whether a handler thread still waits in [handle_request]: such a thread
    keeps the listening socket open in the kernel, and the port bound. *)
Definition held_by (threads : nat) : bool := negb (Nat.eqb threads 0).

(** [server.server_close()] closes the listening socket; the port is free
    again unless a handler thread still waits on the socket. *)
Definition server_close : M unit :=
  fun w => (Ok tt, mkWorld (token_file w) (auth_code w)
                     (held_by (live_threads w))
                     (live_threads w) (trace w ++ [EvServerClose])).

(** ** The token endpoint *)

Definition httpx_post (env : Env) (url : string) (data : dict)
  (auth : string * string) : M Response :=
  emit (EvPost url data auth) ;;;
  ret (token_endpoint env data auth).

Definition is_success (status : Z) : bool :=
  (Z.leb 200 status && Z.leb status 299)%bool.

(** [response.raise_for_status()] *)
Definition raise_for_status (response : Response) : M unit :=
  if is_success (status_code response) then ret tt
  else raise (HTTPStatusError (status_code response)).

(** [response.json()] *)
Definition response_json (response : Response) : M dict :=
  match json_loads (text response) with
  | Some d => ret d
  | None => raise JSONDecodeError
  end.

(** [d[k]] *)
Definition dict_item (k : string) (d : dict) : M value :=
  match dict_get k d with
  | Some v => ret v
  | None => raise (KeyError k)
  end.

(** ** [authorize]

    [webbrowser.open(auth_url)] is recorded with the base URL and the query
    parameters as they are before [urlencode]. *)

Definition authorize (env : Env) : M dict :=
  creds <- _get_credentials env ;;
  HTTPServer_bind ;;;
  set_auth_code None ;;;
  thread_start ;;;
  emit (EvBrowser SPOTIFY_AUTH_URL (auth_params (fst creds))) ;;;
  thread_join env ;;;
  server_close ;;;
  code <- get_auth_code ;;
  match code with
  | Some (String c r) =>
      response <- httpx_post env SPOTIFY_TOKEN_URL
                    [("grant_type", VStr "authorization_code");
                     ("code", VStr (String c r));
                     ("redirect_uri", VStr REDIRECT_URI)]
                    creds ;;
      raise_for_status response ;;;
      tokens <- response_json response ;;
      _save_tokens tokens ;;;
      ret tokens
  | _ => raise (RuntimeError TIMED_OUT_OR_FAILED)
  end.

(** ** [refresh_access_token] *)

Definition refresh_access_token (env : Env) (refresh_token : value) : M dict :=
  creds <- _get_credentials env ;;
  response <- httpx_post env SPOTIFY_TOKEN_URL
                [("grant_type", VStr "refresh_token");
                 ("refresh_token", refresh_token)]
                creds ;;
  raise_for_status response ;;;
  new_tokens <- response_json response ;;
  let new_tokens :=
    if dict_has "refresh_token" new_tokens then new_tokens
    else dict_set "refresh_token" refresh_token new_tokens in
  _save_tokens new_tokens ;;;
  ret new_tokens.

(** ** [get_access_token] *)

(** The probe: [client.get("https://api.spotify.com/v1/me", headers=...)]. *)
Definition client_get (env : Env) (url authorization : string) : M Z :=
  emit (EvGet url authorization) ;;;
  ret (api_me env authorization).

Definition get_access_token (env : Env) : M value :=
  loaded <- _load_tokens ;;
  match loaded with
  | Some (kv :: r) =>
      let tokens := kv :: r in
      access_token <- dict_item "access_token" tokens ;;
      test <- client_get env API_ME_URL ("Bearer " ++ py_str access_token) ;;
      tokens <- (if Z.eqb test 401
                 then refresh_token <- dict_item "refresh_token" tokens ;;
                      refresh_access_token env refresh_token
                 else ret tokens) ;;
      dict_item "access_token" tokens
  | _ =>
      tokens <- authorize env ;;
      dict_item "access_token" tokens
  end.

(** ** Reading a trace *)

Definition is_refresh_post (e : event) : bool :=
  match e with
  | EvPost _ data _ =>
      match dict_get "grant_type" data with
      | Some (VStr g) => String.eqb g "refresh_token"
      | _ => false
      end
  | _ => false
  end.

Definition is_post (e : event) : bool :=
  match e with EvPost _ _ _ => true | _ => false end.

Definition is_write (e : event) : bool :=
  match e with EvWrite _ => true | _ => false end.

(** The events of an authorization flow: the listener and the browser. *)
Definition is_auth_flow (e : event) : bool :=
  match e with
  | EvBind | EvThreadStart | EvBrowser _ _ | EvRequest _ _ | EvThreadExit
  | EvJoin _ | EvServerClose => true
  | _ => false
  end.

Definition count (p : event -> bool) (t : list event) : nat :=
  length (filter p t).


End Auth.

(** [urllib.parse.unquote_to_bytes] read as ISO-8859-1: [%XX] becomes the
    byte [XX].  It is [unquote] wherever the decoded bytes are ASCII, and it
    serves to run the model on concrete requests. *)
Fixpoint unquote_bytes (s : string) : string :=
  match s with
  | EmptyString => EmptyString
  | String c r =>
      if ascii_eqb c "%" then
        match r with
        | String h1 (String h2 r2) =>
            match hex_value h1, hex_value h2 with
            | Some a, Some b => String (ascii_of_nat (16 * a + b)) (unquote_bytes r2)
            | _, _ => String c (unquote_bytes r)
            end
        | _ => String c (unquote_bytes r)
        end
      else String c (unquote_bytes r)
  end.

(** ** Vocabulary of the statements *)

(** What follows a member's value in the text [json.dumps] writes. *)
Definition delimited (s : string) : Prop :=
  exists c r, s = String c r /\ (c = ","%char \/ c = "}"%char).

(** The text of one member after the quote that opens its name, followed by
    [tail]. *)
Definition member_body (kv : string * value) (tail : string) : string :=
  (escape (fst kv) ++ String dquote (": " ++ encode_value (snd kv) ++ tail))%string.

Definition members_tail (d : dict) : string :=
  match d with
  | [] => EmptyString
  | _ :: _ => (", " ++ encode_members d)%string
  end.

(** Both client secrets are set and not empty. *)
Definition configured (env : Env) (client_id client_secret : string) : Prop :=
  environ env "SPOTIFY_CLIENT_ID" = Some client_id /\
  environ env "SPOTIFY_CLIENT_SECRET" = Some client_secret /\
  str_empty client_id = false /\ str_empty client_secret = false.

(** The form the refresh exchange posts. *)
Definition refresh_form (refresh_token : value) : dict :=
  [("grant_type", VStr "refresh_token"); ("refresh_token", refresh_token)].

(** The header the probe sends for a cached access token. *)
Definition bearer (access_token : value) : string :=
  ("Bearer " ++ py_str access_token)%string.

(** What [refresh_access_token] makes of the decoded reply. *)
Definition with_refresh_token (refresh_token : value) (new_tokens : dict) : dict :=
  if dict_has "refresh_token" new_tokens then new_tokens
  else dict_set "refresh_token" refresh_token new_tokens.

(** The first value a list of decoded fields gives a name. *)
Definition first_value (name : string) (fields : list (string * string))
  : option string :=
  dict_get name fields.

(** The design document's words, "the query string contains a [name]
    parameter": one of the fields between the [&] is [name], alone or
    followed by [=] and a value. *)
Definition has_param (name qs : string) : bool :=
  existsb (fun field => String.eqb (fst (split_first "=" field)) name)
          (split_on "&" qs).

Definition set_token_file (f : option string) (w : World) : World :=
  mkWorld f (auth_code w) (listening w) (live_threads w) (trace w).

Definition add_events (new : list event) (w : World) : World :=
  mkWorld (token_file w) (auth_code w) (listening w) (live_threads w)
          (trace w ++ new).

(** All the values a list of decoded fields gives a name, in order. *)
Definition values_of (name : string) (fields : list (string * string))
  : list string :=
  map snd (filter (fun nv => String.eqb name (fst nv)) fields).

(** The error the failure page shows. *)
Definition shown_error (fields : list (string * string)) : string :=
  match first_value "error" fields with
  | Some e => e
  | None => "unknown"
  end.

Definition capture (code : string) (w : World) : World :=
  mkWorld (token_file w) (Some code) (listening w) (live_threads w) (trace w).

(** The events of the listener in one call of [authorize], around those of
    the join. *)
Definition listen_events (cid : string) (joined : list event) : list event :=
  [EvBind; EvThreadStart; EvBrowser SPOTIFY_AUTH_URL (auth_params cid)]
  ++ joined ++ [EvServerClose].

(** What [do_GET] replies to a list of decoded fields. *)
Definition reply_to (fields : list (string * string)) : HttpReply :=
  match first_value "code" fields with
  | Some _ => html_reply 200 SUCCESS_PAGE
  | None => html_reply 400 (failure_page (shown_error fields))
  end.

(** The world when [server_close] has returned: with no request within the
    120 seconds, with a request on which the handler raised, and with a
    request that [do_GET] answered. *)
Definition listened (unquote : string -> string) (env : Env) (cid : string)
  (w : World) : World :=
  match incoming env with
  | None =>
      mkWorld (token_file w) None true (S (live_threads w))
              (trace w ++ listen_events cid [EvJoin false])
  | Some path =>
      match urlsplit env path with
      | Raise _ =>
          mkWorld (token_file w) None (held_by (live_threads w)) (live_threads w)
                  (trace w ++ listen_events cid [EvThreadExit; EvJoin true])
      | Ok _ =>
          let fields := parse_qsl unquote (urlparse_query path) in
          mkWorld (token_file w) (first_value "code" fields)
                  (held_by (live_threads w)) (live_threads w)
                  (trace w ++ listen_events cid
                                [EvRequest path (reply_to fields);
                                 EvThreadExit; EvJoin true])
      end
  end.

(** The rest of [authorize] from the test of the captured code on. *)
Definition after_close (env : Env) (creds : string * string) : M dict :=
  bind get_auth_code (fun code =>
    match code with
    | Some (String c r) =>
        bind (httpx_post env SPOTIFY_TOKEN_URL
                [("grant_type", VStr "authorization_code");
                 ("code", VStr (String c r));
                 ("redirect_uri", VStr REDIRECT_URI)]
                creds)
          (fun response =>
             bind (raise_for_status response) (fun _ =>
             bind (response_json response) (fun tokens =>
             bind (_save_tokens tokens) (fun _ => ret tokens))))
    | _ => raise (RuntimeError TIMED_OUT_OR_FAILED)
    end).

Definition is_close (e : event) : bool :=
  match e with EvServerClose => true | _ => false end.

(** ** Sample data *)

Definition first_run : World := mkWorld None None false 0 [].

Definition test_environ (k : string) : option string :=
  if String.eqb k "SPOTIFY_CLIENT_ID" then Some "test-id"
  else if String.eqb k "SPOTIFY_CLIENT_SECRET" then Some "test-secret"
  else None.

Definition no_environ (k : string) : option string := None.

Definition old_tokens : dict :=
  [("access_token", VStr "abc"); ("token_type", VStr "Bearer");
   ("expires_in", VInt 3600); ("refresh_token", VStr "xyz")].

Definition new_tokens_reply : dict :=
  [("access_token", VStr "def"); ("token_type", VStr "Bearer");
   ("expires_in", VInt 3600)].

(** A provider that grants [old_tokens] for an authorization code and
    answers a refresh with [new_tokens_reply], which has no refresh token. *)
Definition test_provider (data : dict) (auth : string * string) : Response :=
  match dict_get "grant_type" data with
  | Some (VStr "authorization_code") => mkResponse 200 (json_dumps old_tokens)
  | _ => mkResponse 200 (json_dumps new_tokens_reply)
  end.

(** A [urlsplit] that takes whatever stands between two brackets. *)
Definition any_bracketed_netloc (netloc : string) : option string := None.

Definition test_env (request : option string) (probe_status : Z) : Env :=
  mkEnv test_environ request test_provider (fun _ => probe_status)
        any_bracketed_netloc.

Definition unconfigured_env : Env :=
  mkEnv no_environ None test_provider (fun _ => 401%Z) any_bracketed_netloc.

Definition stored (tokens : dict) : World :=
  mkWorld (Some (json_dumps tokens)) None false 0 [].

(** * The tools of [spotify_mcp/server.py]

    The callers of [get_access_token].  What the API answers is decoded JSON
    of any shape, so the values are nested here, and a number that is
    written with a fraction or an exponent is a float.  A response is taken
    as the object the code reads:
    its status, whether it has content, its text and what [json()] gives
    ([None] when [json()] raises). *)

#[warnings="-register-all"]
Inductive pyval : Type :=
| PNone
| PBool (b : bool)
| PInt (z : Z)
| PFloat (f : float)
| PStr (s : string)
| PList (items : list pyval)
| PDict (members : list (string * pyval)).

Definition SPOTIFY_API : string := "https://api.spotify.com/v1".

Record ApiResponse : Type := mkApiResponse {
  api_status : Z;
  api_content : string;
  api_text : string;
  api_json : option pyval
}.

(** The requests the tools send to the API. *)
Inductive api_call : Type :=
| ApiGet (url : string) (params : option (list (string * pyval)))
         (authorization : string)
| ApiPost (url : string) (json_body : pyval) (authorization : string).

(** The API, as the answers it gives. *)
Record Api : Type := mkApi {
  api_get : string -> option (list (string * pyval)) -> string -> ApiResponse;
  api_post : string -> pyval -> string -> ApiResponse
}.

(** The exceptions of the tools: those of the auth module, and those the
    tools raise themselves or meet while reading a reply. *)
Inductive server_exn : Type :=
| Exn (e : exn)
| ValueError (msg : string)
| TypeError
| AttributeError.

Inductive outcome (A : Type) : Type :=
| Done (a : A)
| Failed (e : server_exn).
Arguments Done {A} a.
Arguments Failed {A} e.

(** The world of the auth module, and the requests sent to the API. *)
Record Session : Type := mkSession {
  auth_world : World;
  api_calls : list api_call
}.

Definition SM (A : Type) : Type := Session -> outcome A * Session.

Definition sret {A : Type} (a : A) : SM A := fun s => (Done a, s).

Definition sraise {A : Type} (e : server_exn) : SM A := fun s => (Failed e, s).

Definition sbind {A B : Type} (m : SM A) (k : A -> SM B) : SM B :=
  fun s =>
    match m s with
    | (Done a, s') => k a s'
    | (Failed e, s') => (Failed e, s')
    end.

(** A computation of the auth module, run on the world of the session. *)
Definition lift {A : Type} (m : M A) : SM A :=
  fun s =>
    match m (auth_world s) with
    | (Ok a, w') => (Done a, mkSession w' (api_calls s))
    | (Raise e, w') => (Failed (Exn e), mkSession w' (api_calls s))
    end.

(** A value or an exception, without effect. *)
Definition pure {A : Type} (o : outcome A) : SM A := fun s => (o, s).

Definition obind {A B : Type} (o : outcome A) (k : A -> outcome B) : outcome B :=
  match o with
  | Done a => k a
  | Failed e => Failed e
  end.

Definition record_call (c : api_call) : SM unit :=
  fun s => (Done tt, mkSession (auth_world s) (api_calls s ++ [c])).

(** ** Python on decoded JSON *)

(** [bool(v)] *)
Definition py_truthy (v : pyval) : bool :=
  match v with
  | PNone => false
  | PBool b => b
  | PInt z => negb (Z.eqb z 0)
  | PFloat f => negb (PrimFloat.eqb f 0%float)
  | PStr s => negb (str_empty s)
  | PList items => match items with [] => false | _ :: _ => true end
  | PDict members => match members with [] => false | _ :: _ => true end
  end.

(** [v.get(k, default)]: only a dict has [get]. *)
Definition py_get (v : pyval) (k : string) (default : pyval) : outcome pyval :=
  match v with
  | PDict members =>
      match dict_get k members with
      | Some x => Done x
      | None => Done default
      end
  | _ => Failed AttributeError
  end.

(** [v[k]] for a string [k]: a missing key of a dict is a [KeyError], and
    nothing else can be indexed by a string. *)
Definition py_getitem (v : pyval) (k : string) : outcome pyval :=
  match v with
  | PDict members =>
      match dict_get k members with
      | Some x => Done x
      | None => Failed (Exn (KeyError k))
      end
  | _ => Failed TypeError
  end.

Fixpoint chars_of (s : string) : list pyval :=
  match s with
  | EmptyString => []
  | String c r => PStr (String c EmptyString) :: chars_of r
  end.

(** [iter(v)]: the items of a list, the keys of a dict, the characters of
    a string. *)
Definition py_iter (v : pyval) : outcome (list pyval) :=
  match v with
  | PList items => Done items
  | PDict members => Done (map (fun kv => PStr (fst kv)) members)
  | PStr s => Done (chars_of s)
  | _ => Failed TypeError
  end.

(** A number as [//] leaves it: an int, or a float.  The tools show such a
    float through [:02d] only, which refuses every float, so its value is
    not kept. *)
Inductive number : Type :=
| NInt (z : Z)
| NFloat.

(** [v // n] for an int [n] above 0: a bool counts as 0 or 1, a float gives
    a float, and nothing else can be divided. *)
Definition py_floordiv (v : pyval) (n : Z) : outcome number :=
  match v with
  | PInt z => Done (NInt (Z.div z n))
  | PBool true => Done (NInt (Z.div 1 n))
  | PBool false => Done (NInt (Z.div 0 n))
  | PFloat _ => Done NFloat
  | _ => Failed TypeError
  end.

Fixpoint map_outcome {A B : Type} (f : A -> outcome B) (l : list A)
  : outcome (list B) :=
  match l with
  | [] => Done []
  | a :: r => obind (f a) (fun b => obind (map_outcome f r) (fun bs => Done (b :: bs)))
  end.

Definition as_str (v : pyval) : outcome string :=
  match v with
  | PStr s => Done s
  | _ => Failed TypeError
  end.

(** [sep.join(strings)] *)
Fixpoint join (sep : string) (l : list string) : string :=
  match l with
  | [] => EmptyString
  | [a] => a
  | a :: r => (a ++ sep ++ join sep r)%string
  end.

(** [str(n)] *)
Definition decimal (n : Z) : string := NilZero.string_of_int (Z.to_int n).

(** [f"{n:02d}"] *)
Definition fmt_02d (n : Z) : string :=
  if (Z.leb 0 n && Z.ltb n 10)%bool then ("0" ++ decimal n)%string else decimal n.

(** [f"{s // 60}:{s % 60:02d}"] for an int [s] *)
Definition fmt_clock (s : Z) : string :=
  (decimal (Z.div s 60) ++ ":" ++ fmt_02d (Z.modulo s 60))%string.

Definition FLOAT_FORMAT_ERROR : string :=
  "Unknown format code 'd' for object of type 'float'".

(** [f"{s // 60}:{s % 60:02d}"]: for a float [s] the seconds left are a
    float, and the format [02d] raises. *)
Definition py_fmt_clock (s : number) : outcome string :=
  match s with
  | NInt z => Done (fmt_clock z)
  | NFloat => Failed (ValueError FLOAT_FORMAT_ERROR)
  end.

Definition newline : string := String chr_lf EmptyString.

(** The em dash of the search results (U+2014), held as its UTF-8 bytes
    since it lies outside the code points of the model. *)
Definition EM_DASH : string :=
  String (ascii_of_nat 226) (String (ascii_of_nat 128)
    (String (ascii_of_nat 148) EmptyString)).

Section Server.

Variable unquote : string -> string.

(** [repr] of a float, a list or a dict, which an f-string shows for such a
    value; it is left open. *)
Variable repr : pyval -> string.

(** [f"{v}"] *)
Definition py_format (v : pyval) : string :=
  match v with
  | PNone => "None"
  | PBool true => "True"
  | PBool false => "False"
  | PInt z => decimal z
  | PStr s => s
  | PFloat _ | PList _ | PDict _ => repr v
  end.

(** [response.json()] *)
Definition api_response_json (response : ApiResponse) : outcome pyval :=
  match api_json response with
  | Some v => Done v
  | None => Failed (Exn JSONDecodeError)
  end.

(** ** [_spotify_get] and [_spotify_post] *)

Definition _spotify_get (env : Env) (api : Api) (path : string)
  (params : option (list (string * pyval))) : SM ApiResponse :=
  sbind (lift (get_access_token unquote env)) (fun token =>
  sbind (record_call (ApiGet (SPOTIFY_API ++ path) params (bearer token))) (fun _ =>
  sret (api_get api (SPOTIFY_API ++ path) params (bearer token)))).

Definition _spotify_post (env : Env) (api : Api) (path : string)
  (json_body : pyval) : SM ApiResponse :=
  sbind (lift (get_access_token unquote env)) (fun token =>
  sbind (record_call (ApiPost (SPOTIFY_API ++ path) json_body (bearer token))) (fun _ =>
  sret (api_post api (SPOTIFY_API ++ path) json_body (bearer token)))).

(** ** [get_current_song] *)

Definition NOTHING_PLAYING : string := "Nothing is currently playing.".

Definition api_error (response : ApiResponse) : string :=
  ("Spotify API error (status " ++ decimal (api_status response) ++ "): "
   ++ api_text response)%string.

(** [", ".join(a["name"] for a in artists)] *)
Definition artist_names (artists : pyval) : outcome string :=
  obind (py_iter artists) (fun items =>
  obind (map_outcome (fun a => py_getitem a "name") items) (fun names =>
  obind (map_outcome as_str names) (fun strings =>
  Done (join ", " strings)))).

Definition now_playing (data : pyval) : outcome string :=
  obind (py_get data "item" PNone) (fun item =>
  if negb (py_truthy item) then Done NOTHING_PLAYING
  else
    obind (py_getitem data "item") (fun track =>
    obind (py_getitem track "artists") (fun artists_value =>
    obind (artist_names artists_value) (fun artists =>
    obind (py_get data "progress_ms" (PInt 0)) (fun progress_ms =>
    obind (py_floordiv progress_ms 1000) (fun progress_s =>
    obind (py_getitem track "duration_ms") (fun duration_ms =>
    obind (py_floordiv duration_ms 1000) (fun duration_s =>
    obind (py_fmt_clock progress_s) (fun progress_fmt =>
    obind (py_fmt_clock duration_s) (fun duration_fmt =>
    obind (py_getitem track "name") (fun name =>
    obind (py_getitem track "album") (fun album =>
    obind (py_getitem album "name") (fun album_name =>
    Done ("Now Playing:" ++ newline
          ++ "  Track: " ++ py_format name ++ newline
          ++ "  Artist: " ++ artists ++ newline
          ++ "  Album: " ++ py_format album_name ++ newline
          ++ "  Progress: " ++ progress_fmt ++ " / " ++ duration_fmt)%string))))))))))))).

Definition get_current_song (env : Env) (api : Api) : SM string :=
  sbind (_spotify_get env api "/me/player/currently-playing" None) (fun response =>
  if (Z.eqb (api_status response) 204 || str_empty (api_content response))%bool
  then sret NOTHING_PLAYING
  else if negb (Z.eqb (api_status response) 200)
  then sret (api_error response)
  else pure (obind (api_response_json response) now_playing)).

(** ** [search_track] *)

Definition search_params (query : pyval) : list (string * pyval) :=
  [("q", query); ("type", PStr "track"); ("limit", PInt 5)].

(** One entry of the results, [i] counting from 1. *)
Definition search_entry (i : nat) (track : pyval) : outcome string :=
  obind (py_getitem track "artists") (fun artists_value =>
  obind (artist_names artists_value) (fun artists =>
  obind (py_getitem track "name") (fun name =>
  obind (py_getitem track "album") (fun album =>
  obind (py_getitem album "name") (fun album_name =>
  obind (py_getitem track "uri") (fun uri =>
  Done ("  " ++ decimal (Z.of_nat i) ++ ". " ++ py_format name ++ " "
        ++ EM_DASH ++ " " ++ artists ++ newline
        ++ "     Album: " ++ py_format album_name ++ newline
        ++ "     URI: " ++ py_format uri)%string)))))).

(** The loop over [enumerate(tracks, i)]. *)
Fixpoint search_entries (i : nat) (tracks : list pyval) : outcome (list string) :=
  match tracks with
  | [] => Done []
  | track :: r =>
      obind (search_entry i track) (fun line =>
      obind (search_entries (S i) r) (fun lines => Done (line :: lines)))
  end.

Definition search_results (query data : pyval) : outcome string :=
  obind (py_get data "tracks" (PDict [])) (fun tracks_object =>
  obind (py_get tracks_object "items" (PList [])) (fun tracks =>
  if negb (py_truthy tracks)
  then Done ("No results found for: " ++ py_format query)%string
  else
    obind (py_iter tracks) (fun items =>
    obind (search_entries 1 items) (fun lines =>
    Done (join newline
            (("Search results for '" ++ py_format query ++ "':" ++ newline)%string
             :: lines)))))).

Definition search_track (env : Env) (api : Api) (query : pyval) : SM string :=
  sbind (_spotify_get env api "/search" (Some (search_params query))) (fun response =>
  if negb (Z.eqb (api_status response) 200)
  then sret (api_error response)
  else pure (obind (api_response_json response) (search_results query))).

(** ** [create_playlist] *)

Definition profile_error (response : ApiResponse) : string :=
  ("Failed to get user profile (status " ++ decimal (api_status response)
   ++ "): " ++ api_text response)%string.

Definition playlist_error (response : ApiResponse) : string :=
  ("Failed to create playlist (status " ++ decimal (api_status response)
   ++ "): " ++ api_text response)%string.

Definition playlist_body (name : pyval) : pyval :=
  PDict [("name", name); ("public", PBool false)].

Definition playlist_path (user_id : pyval) : string :=
  ("/users/" ++ py_format user_id ++ "/playlists")%string.

Definition playlist_created (data : pyval) : outcome string :=
  obind (py_getitem data "name") (fun name =>
  obind (py_getitem data "external_urls") (fun external_urls =>
  obind (py_getitem external_urls "spotify") (fun url =>
  Done ("Playlist created!" ++ newline
        ++ "  Name: " ++ py_format name ++ newline
        ++ "  URL: " ++ py_format url)%string))).

Definition create_playlist (env : Env) (api : Api) (name : pyval) : SM string :=
  sbind (_spotify_get env api "/me" None) (fun user_response =>
  if negb (Z.eqb (api_status user_response) 200)
  then sret (profile_error user_response)
  else
    sbind (pure (obind (api_response_json user_response)
                   (fun profile => py_getitem profile "id"))) (fun user_id =>
    sbind (_spotify_post env api (playlist_path user_id) (playlist_body name))
      (fun response =>
    if negb (Z.eqb (api_status response) 200 || Z.eqb (api_status response) 201)%bool
    then sret (playlist_error response)
    else pure (obind (api_response_json response) playlist_created)))).

(** ** [handle_list_tools] and [handle_call_tool] *)

(** A tool as it is listed: its name, its description, the properties of
    its input (name, type, description) and the names that are required. *)
Record Tool : Type := mkTool {
  tool_name : string;
  tool_description : string;
  tool_properties : list (string * (string * string));
  tool_required : list string
}.

Definition handle_list_tools : list Tool :=
  [mkTool "get_current_song" "Get the currently playing song on Spotify" [] [];
   mkTool "search_track" "Search for tracks on Spotify"
     [("query", ("string",
                 "Search query, e.g. 'Bohemian Rhapsody' or 'artist:Queen'"))]
     ["query"];
   mkTool "create_playlist" "Create a new empty playlist on Spotify"
     [("name", ("string", "Name for the new playlist"))]
     ["name"]].

Record TextContent : Type := mkTextContent {
  content_type : string;
  content_text : string
}.

(** [not arguments or key not in arguments]: an empty dict has no key. *)
Definition lacks (key : string) (arguments : option (list (string * pyval))) : bool :=
  match arguments with
  | None => true
  | Some members => negb (dict_has key members)
  end.

(** [arguments[key]] once the test above has passed. *)
Definition argument (key : string) (arguments : option (list (string * pyval)))
  : outcome pyval :=
  match arguments with
  | Some members => py_getitem (PDict members) key
  | None => Failed TypeError
  end.

Definition handle_call_tool (env : Env) (api : Api) (name : string)
  (arguments : option (list (string * pyval))) : SM (list TextContent) :=
  sbind
    (if String.eqb name "get_current_song" then get_current_song env api
     else if String.eqb name "search_track" then
       if lacks "query" arguments
       then sraise (ValueError "Missing required argument: query")
       else sbind (pure (argument "query" arguments)) (search_track env api)
     else if String.eqb name "create_playlist" then
       if lacks "name" arguments
       then sraise (ValueError "Missing required argument: name")
       else sbind (pure (argument "name" arguments)) (create_playlist env api)
     else sraise (ValueError ("Unknown tool: " ++ name)))
    (fun result => sret [mkTextContent "text" result]).

End Server.

(** ** Vocabulary of the further statements *)

(** The form the authorization-code exchange posts. *)
Definition code_form (code : string) : dict :=
  [("grant_type", VStr "authorization_code"); ("code", VStr code);
   ("redirect_uri", VStr REDIRECT_URI)].


(** A provider that refuses every exchange. *)
Definition refusing_provider (data : dict) (auth : string * string) : Response :=
  mkResponse 400 "invalid_grant".

Definition refusing_env (request : option string) (probe_status : Z) : Env :=
  mkEnv test_environ request refusing_provider (fun _ => probe_status)
        any_bracketed_netloc.

(** A provider whose replies carry a new refresh token. *)
Definition rotated_tokens : dict :=
  [("access_token", VStr "def"); ("refresh_token", VStr "uvw")].

Definition rotating_provider (data : dict) (auth : string * string) : Response :=
  mkResponse 200 (json_dumps rotated_tokens).

Definition rotating_env : Env :=
  mkEnv test_environ None rotating_provider (fun _ => 401%Z)
        any_bracketed_netloc.

(** A grant that has no access token. *)
Definition tokenless_grant : dict := [("token_type", VStr "Bearer")].

Definition tokenless_provider (data : dict) (auth : string * string) : Response :=
  mkResponse 200 (json_dumps tokenless_grant).

Definition tokenless_env : Env :=
  mkEnv test_environ (Some "/callback?code=ABC123") tokenless_provider
        (fun _ => 200%Z) any_bracketed_netloc.

(** A reply of the API that is well formed for [get_current_song]: the
    members the tool reads are there, with the types the API gives them. *)
Definition artist_named (a : pyval) (name : string) : Prop :=
  exists members, a = PDict members /\ dict_get "name" members = Some (PStr name).

Definition playing (data : pyval) (track_name : string) (artists : list string)
  (album : string) (progress_ms duration_ms : Z) : Prop :=
  exists (members track : list (string * pyval)) (artist_values : list pyval)
         (album_members : list (string * pyval)),
    data = PDict members /\
    dict_get "item" members = Some (PDict track) /\
    track <> [] /\
    dict_get "progress_ms" members = Some (PInt progress_ms) /\
    dict_get "name" track = Some (PStr track_name) /\
    dict_get "artists" track = Some (PList artist_values) /\
    Forall2 artist_named artist_values artists /\
    dict_get "album" track = Some (PDict album_members) /\
    dict_get "name" album_members = Some (PStr album) /\
    dict_get "duration_ms" track = Some (PInt duration_ms).

(** The character of a decimal digit. *)
Definition digit_char (d : Z) : ascii := ascii_of_nat (48 + Z.to_nat d).

Definition two_digits (n : Z) : string :=
  String (digit_char (Z.div n 10)) (String (digit_char (Z.modulo n 10)) EmptyString).

Definition is_api_post (c : api_call) : bool :=
  match c with ApiPost _ _ _ => true | ApiGet _ _ _ => false end.

(** What [search_track] shows of a track. *)
Record TrackInfo : Type := mkTrackInfo {
  info_name : string;
  info_artists : list string;
  info_album : string;
  info_uri : string
}.

(** A track of a search reply that has the members the tool reads, with
    the types the API gives them. *)
Definition listed_track (track : pyval) (info : TrackInfo) : Prop :=
  exists (members : list (string * pyval)) (artist_values : list pyval)
         (album_members : list (string * pyval)),
    track = PDict members /\
    dict_get "name" members = Some (PStr (info_name info)) /\
    dict_get "artists" members = Some (PList artist_values) /\
    Forall2 artist_named artist_values (info_artists info) /\
    dict_get "album" members = Some (PDict album_members) /\
    dict_get "name" album_members = Some (PStr (info_album info)) /\
    dict_get "uri" members = Some (PStr (info_uri info)).

(** The entry with the number [i]. *)
Definition entry_text (i : nat) (info : TrackInfo) : string :=
  ("  " ++ decimal (Z.of_nat i) ++ ". " ++ info_name info ++ " "
   ++ EM_DASH ++ " " ++ join ", " (info_artists info) ++ newline
   ++ "     Album: " ++ info_album info ++ newline
   ++ "     URI: " ++ info_uri info)%string.

(** The entries numbered from [i] on. *)
Fixpoint entries_from (i : nat) (infos : list TrackInfo) : list string :=
  match infos with
  | [] => []
  | info :: r => entry_text i info :: entries_from (S i) r
  end.

(** [isinstance(v, (int, float))], and [isinstance(v, float)]. *)
Definition is_number (v : pyval) : bool :=
  match v with
  | PInt _ | PBool _ | PFloat _ => true
  | _ => false
  end.

Definition is_float (v : pyval) : bool :=
  match v with
  | PFloat _ => true
  | _ => false
  end.

(** ** Sample replies of the API *)

Definition session_of (w : World) : Session := mkSession w [].

Definition test_api (get_reply post_reply : ApiResponse) : Api :=
  mkApi (fun _ _ _ => get_reply) (fun _ _ _ => post_reply).

Definition playing_sample : pyval :=
  PDict [("item",
          PDict [("name", PStr "Bohemian Rhapsody");
                 ("artists", PList [PDict [("name", PStr "Queen")]]);
                 ("album", PDict [("name", PStr "A Night at the Opera")]);
                 ("duration_ms", PInt 354000)]);
         ("progress_ms", PInt 120000)].

Definition playing_reply : ApiResponse :=
  mkApiResponse 200 "data" "data" (Some playing_sample).

Definition search_sample_tracks : list pyval :=
  [PDict [("name", PStr "Bohemian Rhapsody");
          ("artists", PList [PDict [("name", PStr "Queen")]]);
          ("album", PDict [("name", PStr "A Night at the Opera")]);
          ("uri", PStr "spotify:track:abc123")];
   PDict [("name", PStr "Under Pressure");
          ("artists",
           PList [PDict [("name", PStr "Queen")];
                  PDict [("name", PStr "David Bowie")]]);
          ("album", PDict [("name", PStr "Hot Space")]);
          ("uri", PStr "spotify:track:def456")]].

Definition search_sample : pyval :=
  PDict [("tracks", PDict [("items", PList search_sample_tracks)])].

Definition search_sample_infos : list TrackInfo :=
  [mkTrackInfo "Bohemian Rhapsody" ["Queen"] "A Night at the Opera"
     "spotify:track:abc123";
   mkTrackInfo "Under Pressure" ["Queen"; "David Bowie"] "Hot Space"
     "spotify:track:def456"].

(** A playing reply whose duration is written with a fraction. *)
Definition float_sample : pyval :=
  PDict [("item",
          PDict [("name", PStr "Bohemian Rhapsody");
                 ("artists", PList [PDict [("name", PStr "Queen")]]);
                 ("album", PDict [("name", PStr "A Night at the Opera")]);
                 ("duration_ms", PFloat 354000.5%float)]);
         ("progress_ms", PInt 120000)].

Definition no_tracks_sample : pyval := PDict [("tracks", PDict [("items", PList [])])].

Definition profile_reply : ApiResponse :=
  mkApiResponse 200 "data" "data" (Some (PDict [("id", PStr "user123")])).

Definition playlist_reply : ApiResponse :=
  mkApiResponse 201 "data" "data"
    (Some (PDict [("name", PStr "My Playlist");
                  ("external_urls",
                   PDict [("spotify", PStr "https://open.spotify.com/playlist/abc")])])).

Definition error_reply : ApiResponse :=
  mkApiResponse 503 "Service Unavailable" "Service Unavailable" None.

(** The repr of a float, a list or a dict, for running the model: a
    placeholder. *)
Definition test_repr (v : pyval) : string := "<repr>".

(** * Facts *)

(** ** Strings *)

Lemma append_assoc (a b c : string) : ((a ++ b) ++ c = a ++ (b ++ c))%string.
Proof.
  induction a as [|x a IH]; simpl; [reflexivity | now rewrite IH].
Qed.

Lemma append_length (a b : string) :
  String.length (a ++ b) = String.length a + String.length b.
Proof.
  induction a as [|x a IH]; simpl; [reflexivity | now rewrite IH].
Qed.

(** ** The credential file: [json.loads] undoes [json.dumps] *)

(** One escaped character is read back as the character it stands for. *)
Lemma scanstring_escape_char (c : ascii) (s : string) :
  scanstring (escape_char c ++ s) =
  match scanstring s with
  | Some (t, rest) => Some (String c t, rest)
  | None => None
  end.
Proof.
  destruct c as [[] [] [] [] [] [] [] []]; reflexivity.
Qed.

Lemma scanstring_escape (s rest : string) :
  scanstring (escape s ++ String dquote rest) = Some (s, rest).
Proof.
  induction s as [|c s IH]; simpl.
  - reflexivity.
  - rewrite append_assoc, scanstring_escape_char, IH. reflexivity.
Qed.

Lemma scan_digits_uint (d : uint) (rest : string) :
  delimited rest ->
  scan_digits (NilEmpty.string_of_uint d ++ rest) = (d, rest).
Proof.
  intros (c & r & -> & Hc).
  induction d; simpl;
    try (rewrite IHd; reflexivity).
  destruct Hc as [-> | ->]; reflexivity.
Qed.

Lemma nzhead_not_D0 (d x : uint) : nzhead d <> D0 x.
Proof.
  induction d; simpl; try discriminate. exact IHd.
Qed.

(** [str(n)] has no leading zero. *)
Lemma to_uint_not_D0 (p : positive) (x : uint) : Pos.to_uint p <> D0 x.
Proof.
  intros E.
  pose proof (DecimalPos.Unsigned.to_of (Pos.to_uint p)) as H.
  rewrite DecimalPos.Unsigned.of_to in H. simpl in H.
  rewrite E in H. rewrite DecimalFacts.unorm_D0 in H.
  unfold unorm in H.
  destruct (nzhead x) eqn:Hx;
    try (rewrite <- Hx in H; exact (nzhead_not_D0 _ _ (eq_sym H))).
  injection H as ->.
  exact (DecimalPos.Unsigned.to_uint_nonzero p E).
Qed.

Lemma scan_nat_pos (p : positive) (rest : string) :
  delimited rest ->
  scan_nat (NilEmpty.string_of_uint (Pos.to_uint p) ++ rest) = Some (Z.pos p, rest).
Proof.
  intros Hrest.
  pose proof (scan_digits_uint (Pos.to_uint p) rest Hrest) as Hd.
  pose proof (DecimalPos.Unsigned.of_to p) as Hp.
  pose proof (to_uint_not_D0 p) as H0.
  pose proof (DecimalPos.Unsigned.to_uint_nonnil p) as Hn.
  assert (Hf : starts_float_tail rest = false).
  { destruct Hrest as (c & r & -> & [-> | ->]); reflexivity. }
  destruct (Pos.to_uint p) as [|u|u|u|u|u|u|u|u|u|u] eqn:E;
    try (exfalso; apply Hn; reflexivity);
    try (exfalso; apply (H0 u); reflexivity);
    unfold scan_nat;
    match goal with
    | |- context [scan_digits ?s] =>
        change (NilEmpty.string_of_uint ?d ++ rest)%string with s in Hd
    end;
    cbn [NilEmpty.string_of_uint append] in *;
    cbn [ascii_eqb Ascii.eqb Bool.eqb is_digit nat_of_ascii] ;
    simpl is_digit; cbv iota;
    rewrite Hd, Hf; unfold Z.of_uint; rewrite Hp; reflexivity.
Qed.

Lemma skip_ws_encode_value (v : value) (s : string) :
  skip_ws (encode_value v ++ s) = (encode_value v ++ s)%string.
Proof.
  destruct v as [|[]|[|p|p]|t]; try reflexivity;
    simpl; destruct (Pos.to_uint p); reflexivity.
Qed.

Lemma scan_value_encode (v : value) (rest : string) :
  delimited rest ->
  scan_value (encode_value v ++ rest) = Some (v, rest).
Proof.
  intros Hrest.
  destruct v as [|[]|[|p|p]|t]; try reflexivity.
  - destruct Hrest as (c & r & -> & [-> | ->]); reflexivity.
  - pose proof (scan_nat_pos p rest Hrest) as H.
    pose proof (DecimalPos.Unsigned.to_uint_nonnil p) as Hn.
    pose proof (to_uint_not_D0 p) as H0.
    simpl. unfold NilZero.string_of_uint.
    destruct (Pos.to_uint p) as [|u|u|u|u|u|u|u|u|u|u];
      try (exfalso; apply Hn; reflexivity);
      try (exfalso; apply (H0 u); reflexivity);
      cbn [NilEmpty.string_of_uint append] in *;
      unfold scan_value; simpl ascii_eqb; cbv iota; rewrite H; reflexivity.
  - pose proof (scan_nat_pos p rest Hrest) as H.
    pose proof (DecimalPos.Unsigned.to_uint_nonnil p) as Hn.
    simpl. unfold NilZero.string_of_uint.
    destruct (Pos.to_uint p) as [|u|u|u|u|u|u|u|u|u|u];
      try (exfalso; apply Hn; reflexivity);
      cbn [NilEmpty.string_of_uint append] in *;
      rewrite H; reflexivity.
  - unfold encode_value, encode_string. simpl.
    rewrite append_assoc. simpl. rewrite scanstring_escape. reflexivity.
Qed.

Lemma encode_members_cons (kv : string * value) (d : dict) :
  encode_members (kv :: d) = String dquote (member_body kv (members_tail d)).
Proof.
  unfold member_body, members_tail.
  destruct d as [|kv' d]; simpl; unfold encode_member, encode_string; simpl;
    rewrite !append_assoc; simpl; try rewrite !append_assoc; simpl.
  - assert (E : forall s, (s ++ "")%string = s)
      by (induction s as [|x s IH]; simpl; [|rewrite IH]; reflexivity).
    rewrite !E. reflexivity.
  - reflexivity.
Qed.

Lemma scan_members_encode (d : dict) :
  forall (kv : string * value) (fuel : nat) (rest : string),
    length d < fuel ->
    scan_members fuel (member_body kv (members_tail d) ++ String "}" rest)
    = Some (kv :: d, rest).
Proof.
  induction d as [|kv' d IH]; intros [k v] fuel rest Hfuel;
    (destruct fuel as [|fuel]; [inversion Hfuel|]).
  - unfold member_body, members_tail. cbn [scan_members fst snd].
    rewrite append_assoc. cbn [append]. rewrite scanstring_escape.
    cbn. rewrite append_assoc. cbn [append].
    rewrite skip_ws_encode_value.
    rewrite scan_value_encode by (exists "}"%char, rest; auto).
    reflexivity.
  - unfold member_body at 1. cbn [scan_members fst snd members_tail].
    rewrite encode_members_cons.
    set (body := member_body kv' (members_tail d)) in *.
    rewrite append_assoc. cbn [append]. rewrite scanstring_escape.
    cbn. rewrite !append_assoc. cbn [append].
    rewrite skip_ws_encode_value.
    rewrite scan_value_encode
      by (eexists ","%char, _; split; [reflexivity | auto]).
    change (skip_ws (String "," ?s)) with (String "," s).
    cbv iota. change (ascii_eqb "," "}") with false.
    change (ascii_eqb "," ",") with true. cbv iota.
    change (skip_ws (String " " (String dquote ?s))) with (String dquote s).
    cbv iota. change (ascii_eqb dquote dquote) with true. cbv iota.
    subst body. rewrite IH by (simpl in Hfuel; lia). reflexivity.
Qed.

Lemma dict_get_app_none {A : Type} (k : string) (v : A) (d : list (string * A)) :
  ~ In k (keys d) -> dict_set k v d = d ++ [(k, v)].
Proof.
  induction d as [|[k' v'] d IH]; simpl; intros Hk.
  - reflexivity.
  - destruct (String.eqb_spec k k') as [->|Hne].
    + exfalso. apply Hk. now left.
    + rewrite IH; [reflexivity|]. intros Hin. apply Hk. now right.
Qed.

Lemma dict_of_pairs_acc {A : Type} (d acc : list (string * A)) :
  NoDup (keys (acc ++ d)) ->
  fold_left (fun d kv => dict_set (fst kv) (snd kv) d) d acc = acc ++ d.
Proof.
  revert acc. induction d as [|[k v] d IH]; intros acc Hnd; simpl.
  - now rewrite app_nil_r.
  - rewrite dict_get_app_none.
    + rewrite IH; rewrite <- app_assoc; [reflexivity | exact Hnd].
    + unfold keys in *. rewrite map_app in Hnd. simpl in Hnd.
      apply NoDup_remove_2 in Hnd. intros Hin. apply Hnd.
      apply in_or_app. now left.
Qed.

(** [dict(pairs)] keeps a list of pairs whose names are all different. *)
Lemma dict_of_pairs_nodup {A : Type} (d : list (string * A)) :
  NoDup (keys d) -> dict_of_pairs d = d.
Proof.
  intros H. unfold dict_of_pairs. now rewrite dict_of_pairs_acc.
Qed.

Lemma encode_members_length (d : dict) :
  length d <= String.length (encode_members d).
Proof.
  induction d as [|kv d IH]; [simpl; lia|].
  rewrite encode_members_cons. unfold member_body, members_tail.
  cbn [String.length]. rewrite append_length. cbn [String.length].
  rewrite append_length.
  destruct d as [|kv' d]; [simpl; lia|].
  rewrite append_length. simpl in *. lia.
Qed.

(** [json.loads(json.dumps(d)) == d] *)
Lemma json_loads_dumps (d : dict) :
  NoDup (keys d) -> json_loads (json_dumps d) = Some d.
Proof.
  intros Hnd. unfold json_dumps.
  destruct d as [|kv d]; [reflexivity|].
  rewrite encode_members_cons.
  cbn. unfold scan_object. cbn.
  rewrite scan_members_encode.
  - rewrite dict_of_pairs_nodup by exact Hnd. reflexivity.
  - rewrite append_length.
    pose proof (encode_members_length d) as Hlen.
    unfold member_body, members_tail.
    rewrite append_length. cbn [String.length]. rewrite append_length.
    destruct d as [|kv' d]; [simpl; lia|].
    rewrite append_length. simpl in *. lia.
Qed.

(** ** Keys stay unique *)

Lemma in_keys_dict_set {A : Type} (k x : string) (v : A) (d : list (string * A)) :
  In x (keys (dict_set k v d)) -> x = k \/ In x (keys d).
Proof.
  induction d as [|[k' v'] d IH]; simpl.
  - intros [<- | []]. now left.
  - destruct (String.eqb_spec k k') as [->|Hne]; simpl.
    + intros H. now right.
    + intros [<- | H]; [right; now left|].
      destruct (IH H) as [-> | Hin]; [now left | right; now right].
Qed.

Lemma dict_set_nodup {A : Type} (k : string) (v : A) (d : list (string * A)) :
  NoDup (keys d) -> NoDup (keys (dict_set k v d)).
Proof.
  induction d as [|[k' v'] d IH]; simpl; intros Hnd.
  - constructor; [intros [] | constructor].
  - inversion Hnd as [|? ? Hnotin Hnd']; subst.
    destruct (String.eqb_spec k k') as [->|Hne]; simpl.
    + constructor; assumption.
    + constructor; [|now apply IH].
      intros Hin. apply in_keys_dict_set in Hin as [-> | Hin]; auto.
Qed.

Lemma dict_of_pairs_keys_nodup {A : Type} (ps : list (string * A)) :
  NoDup (keys (dict_of_pairs ps)).
Proof.
  unfold dict_of_pairs.
  assert (H : forall acc : list (string * A), NoDup (keys acc) ->
            NoDup (keys (fold_left
                           (fun d kv => dict_set (fst kv) (snd kv) d) ps acc))).
  { induction ps as [|[k v] ps IH]; intros acc Hacc; simpl.
    - exact Hacc.
    - apply IH. now apply dict_set_nodup. }
  apply H. constructor.
Qed.

(** What [json.loads] returns is a dict: no name occurs twice. *)
Lemma json_loads_nodup (s : string) (d : dict) :
  json_loads s = Some d -> NoDup (keys d).
Proof.
  unfold json_loads.
  destruct (skip_ws s) as [|c r]; [discriminate|].
  destruct (ascii_eqb c "{"); [|discriminate].
  unfold scan_object.
  destruct (skip_ws r) as [|c' r']; [discriminate|].
  destruct (ascii_eqb c' "}").
  - destruct (str_empty (skip_ws r')); [|discriminate].
    intros [= <-]. constructor.
  - destruct (ascii_eqb c' dquote); [|discriminate].
    destruct (scan_members (String.length r') r') as [[ps rest]|]; [|discriminate].
    destruct (str_empty (skip_ws rest)); [|discriminate].
    intros [= <-]. apply dict_of_pairs_keys_nodup.
Qed.

Lemma dict_get_set_same {A : Type} (k : string) (v : A) (d : list (string * A)) :
  dict_get k d = None -> dict_get k (dict_set k v d) = Some v.
Proof.
  induction d as [|[k' v'] d IH]; simpl.
  - now rewrite String.eqb_refl.
  - destruct (String.eqb k k') eqn:E; [discriminate|].
    simpl. rewrite E. exact IH.
Qed.

Lemma dict_get_set_other {A : Type} (k k0 : string) (v : A) (d : list (string * A)) :
  k0 <> k -> dict_get k0 (dict_set k v d) = dict_get k0 d.
Proof.
  intros Hne. induction d as [|[k' v'] d IH]; simpl.
  - destruct (String.eqb_spec k0 k); [contradiction | reflexivity].
  - destruct (String.eqb_spec k k') as [->|Hkk']; simpl.
    + destruct (String.eqb_spec k0 k'); [contradiction | reflexivity].
    + destruct (String.eqb k0 k'); [reflexivity | exact IH].
Qed.

(** ** The credential store *)

(** When [write_text] has returned, the file holds the text and nothing else. *)
Lemma write_text_result (data : string) (w : World) :
  write_text data w =
  (Ok tt, mkWorld (Some data) (auth_code w) (listening w) (live_threads w)
            (trace w ++ [EvWrite data])).
Proof. reflexivity. Qed.

Lemma _save_tokens_result (tokens : dict) (w : World) :
  _save_tokens tokens w =
  (Ok tt, mkWorld (Some (json_dumps tokens)) (auth_code w) (listening w)
            (live_threads w) (trace w ++ [EvWrite (json_dumps tokens)])).
Proof. reflexivity. Qed.

(** C8. Saving a token set and loading it again gives back the same token
    set, member for member, whatever the file held before; and when the file
    does not exist, loading returns [None] and raises nothing. *)
Theorem save_then_load (T : dict) (w : World) :
  NoDup (keys T) ->
  (let w1 := snd (_save_tokens T w) in
   fst (_save_tokens T w) = Ok tt /\ _load_tokens w1 = (Ok (Some T), w1)) /\
  (token_file w = None -> _load_tokens w = (Ok None, w)).
Proof.
  intros Hnd. split.
  - split; [reflexivity|].
    rewrite _save_tokens_result. unfold _load_tokens. cbn [snd token_file].
    rewrite json_loads_dumps by exact Hnd. reflexivity.
  - intros Hnone. unfold _load_tokens. rewrite Hnone. reflexivity.
Qed.

Lemma save_then_load_witness :
  NoDup (keys old_tokens) /\
  (let w1 := snd (_save_tokens old_tokens first_run) in
   fst (_save_tokens old_tokens first_run) = Ok tt /\
   _load_tokens w1 = (Ok (Some old_tokens), w1)) /\
  (token_file first_run = None -> _load_tokens first_run = (Ok None, first_run)).
Proof.
  assert (H : NoDup (keys old_tokens)).
  { repeat constructor; simpl; intuition discriminate. }
  split; [exact H | exact (save_then_load old_tokens first_run H)].
Defined.

(** ** The client secrets *)

Lemma _get_credentials_configured (env : Env) (cid csec : string) (w : World) :
  configured env cid csec -> _get_credentials env w = (Ok (cid, csec), w).
Proof.
  intros (Hid & Hsec & Hid' & Hsec').
  unfold _get_credentials, falsy. rewrite Hid, Hsec, Hid', Hsec'. reflexivity.
Qed.

Lemma _get_credentials_missing (env : Env) (w : World) :
  falsy (environ env "SPOTIFY_CLIENT_ID") = true \/
  falsy (environ env "SPOTIFY_CLIENT_SECRET") = true ->
  _get_credentials env w = (Raise (RuntimeError MISSING_CREDENTIALS), w).
Proof.
  intros H. unfold _get_credentials.
  destruct H as [-> | ->]; [reflexivity|].
  rewrite orb_true_r. reflexivity.
Qed.


(** ** The refresh exchange *)

(** A refresh the provider accepts: one POST, one write, and the decoded
    reply, completed with the refresh token when it has none, is both stored
    and returned. *)
Lemma refresh_access_token_ok (env : Env) (r : value) (w : World)
  (cid csec : string) (d : dict) :
  configured env cid csec ->
  is_success (status_code (token_endpoint env (refresh_form r) (cid, csec))) = true ->
  json_loads (text (token_endpoint env (refresh_form r) (cid, csec))) = Some d ->
  refresh_access_token env r w =
  (Ok (with_refresh_token r d),
   set_token_file (Some (json_dumps (with_refresh_token r d)))
     (add_events [EvPost SPOTIFY_TOKEN_URL (refresh_form r) (cid, csec);
                  EvWrite (json_dumps (with_refresh_token r d))] w)).
Proof.
  intros Hcfg Hok Hjson.
  unfold refresh_access_token, bind.
  rewrite (_get_credentials_configured env cid csec w Hcfg).
  unfold httpx_post, bind, emit, ret, raise_for_status, response_json.
  fold (refresh_form r). rewrite Hok, Hjson.
  unfold ret. cbv beta iota. rewrite _save_tokens_result.
  unfold with_refresh_token, set_token_file, add_events.
  cbn [token_file auth_code listening live_threads trace].
  rewrite <- app_assoc. reflexivity.
Qed.

(** Whatever the provider answers, a configured [refresh_access_token]
    posts exactly once, then writes at most once, and does nothing else. *)
Lemma refresh_access_token_cases (env : Env) (r : value) (w : World)
  (cid csec : string) :
  configured env cid csec ->
  exists (res : result dict) (f : option string) (tail : list event),
    refresh_access_token env r w =
    (res, mkWorld f (auth_code w) (listening w) (live_threads w)
            (trace w ++ EvPost SPOTIFY_TOKEN_URL (refresh_form r) (cid, csec)
                       :: tail)) /\
    count is_post tail = 0 /\ count is_auth_flow tail = 0 /\
    count is_write tail <= 1.
Proof.
  intros Hcfg.
  unfold refresh_access_token, bind at 1.
  rewrite (_get_credentials_configured env cid csec w Hcfg).
  unfold bind at 1, httpx_post, bind at 1, emit, ret at 1.
  cbv beta iota. fold (refresh_form r).
  unfold bind at 1, raise_for_status.
  match goal with
  | |- context [is_success ?x] => destruct (is_success x)
  end.
  - unfold ret at 1. cbv beta iota.
    unfold bind at 1, response_json.
    match goal with
    | |- context [json_loads ?x] => destruct (json_loads x) as [tokens|]
    end.
    + unfold ret at 1. cbv beta iota.
      unfold bind. rewrite _save_tokens_result. unfold ret.
      cbn [snd token_file auth_code listening live_threads trace].
      eexists _, _, [_]. rewrite <- app_assoc.
      split; [reflexivity|]. cbn. repeat split; lia.
    + unfold raise. eexists _, _, []. split; [reflexivity|].
      cbn. repeat split; lia.
  - unfold raise. eexists _, _, []. split; [reflexivity|].
    cbn. repeat split; lia.
Qed.

(** C2. When the provider accepts a refresh and its reply has no
    [refresh_token] member, the token set that [refresh_access_token]
    returns carries the refresh token it was called with and everything the
    reply held; that same token set is what the credential file holds
    afterwards, and what the next load reads. *)
Theorem refresh_keeps_refresh_token (env : Env) (r : value) (w : World)
  (cid csec : string) (d : dict) :
  configured env cid csec ->
  is_success (status_code (token_endpoint env (refresh_form r) (cid, csec))) = true ->
  json_loads (text (token_endpoint env (refresh_form r) (cid, csec))) = Some d ->
  dict_get "refresh_token" d = None ->
  exists (T : dict) (w' : World),
    refresh_access_token env r w = (Ok T, w') /\
    dict_get "refresh_token" T = Some r /\
    (forall k, k <> "refresh_token" -> dict_get k T = dict_get k d) /\
    token_file w' = Some (json_dumps T) /\
    _load_tokens w' = (Ok (Some T), w').
Proof.
  intros Hcfg Hok Hjson Hnone.
  eexists _, _. split; [exact (refresh_access_token_ok env r w cid csec d Hcfg Hok Hjson)|].
  assert (E : with_refresh_token r d = dict_set "refresh_token" r d).
  { unfold with_refresh_token, dict_has. now rewrite Hnone. }
  rewrite E. repeat split.
  - now apply dict_get_set_same.
  - intros k Hk. now apply dict_get_set_other.
  - unfold _load_tokens, set_token_file. cbn [token_file].
    rewrite json_loads_dumps; [reflexivity|].
    apply dict_set_nodup. exact (json_loads_nodup _ _ Hjson).
Qed.

Lemma refresh_keeps_refresh_token_witness :
  exists (T : dict) (w' : World),
    refresh_access_token (test_env None 401) (VStr "xyz") (stored old_tokens)
    = (Ok T, w') /\
    dict_get "refresh_token" T = Some (VStr "xyz") /\
    (forall k, k <> "refresh_token" ->
               dict_get k T = dict_get k new_tokens_reply) /\
    token_file w' = Some (json_dumps T) /\
    _load_tokens w' = (Ok (Some T), w').
Proof.
  apply (refresh_keeps_refresh_token (test_env None 401) (VStr "xyz")
           (stored old_tokens) "test-id" "test-secret" new_tokens_reply).
  - repeat split.
  - reflexivity.
  - reflexivity.
  - reflexivity.
Defined.

(** ** The supervisor: [get_access_token] *)

(** With a token set in the store, [get_access_token] probes the API with
    the cached access token and goes on from the status it gets. *)
Lemma get_access_token_probe (unquote : string -> string) (env : Env) (w : World)
  (content : string) (T : dict) (a : value) :
  token_file w = Some content ->
  json_loads content = Some T ->
  dict_get "access_token" T = Some a ->
  get_access_token unquote env w =
  bind (if Z.eqb (api_me env (bearer a)) 401
        then bind (dict_item "refresh_token" T) (refresh_access_token env)
        else ret T)
       (dict_item "access_token")
       (add_events [EvGet API_ME_URL (bearer a)] w).
Proof.
  intros Hfile Hjson Ha.
  unfold get_access_token, bind at 1, _load_tokens.
  rewrite Hfile, Hjson.
  destruct T as [|kv T']; [discriminate|].
  unfold bind at 1, dict_item at 1. rewrite Ha.
  unfold ret at 1. cbv beta iota.
  unfold bind at 1, client_get, bind at 1, emit, ret at 1 2.
  cbv beta iota. reflexivity.
Qed.

(** The probe answered with another status than 401: the cached access
    token is returned, and the probe is all that happened. *)
Lemma get_access_token_cached (unquote : string -> string) (env : Env) (w : World)
  (content : string) (T : dict) (a : value) :
  token_file w = Some content ->
  json_loads content = Some T ->
  dict_get "access_token" T = Some a ->
  api_me env (bearer a) <> 401%Z ->
  get_access_token unquote env w =
  (Ok a, add_events [EvGet API_ME_URL (bearer a)] w).
Proof.
  intros Hfile Hjson Ha Hst.
  rewrite (get_access_token_probe unquote env w content T a Hfile Hjson Ha).
  apply Z.eqb_neq in Hst. rewrite Hst.
  unfold bind, ret, dict_item. rewrite Ha. reflexivity.
Qed.

(** A stored token set without an access token: the lookup fails before
    anything is sent. *)
Lemma get_access_token_keyless (unquote : string -> string) (env : Env)
  (w : World) (content : string) (T : dict) :
  token_file w = Some content ->
  json_loads content = Some T ->
  T <> [] ->
  dict_get "access_token" T = None ->
  get_access_token unquote env w = (Raise (KeyError "access_token"), w).
Proof.
  intros Hfile Hjson Hne Ha.
  unfold get_access_token, bind at 1, _load_tokens.
  rewrite Hfile, Hjson.
  destruct T as [|kv T']; [contradiction|].
  unfold bind, dict_item. rewrite Ha. reflexivity.
Qed.

Lemma no_post_no_refresh_post (t : list event) :
  count is_post t = 0 -> count is_refresh_post t = 0.
Proof.
  unfold count. induction t as [|e t IH]; [reflexivity|].
  destruct e; simpl; try exact IH. discriminate.
Qed.

(** C1. With a token set in the store and the client secrets configured:
    when the probe is answered 401, [get_access_token] makes exactly one POST
    to the token endpoint, with the [refresh_token] grant, and starts no
    authorization flow, whatever the provider answers.  When the provider
    accepts the refresh, the call consists of the probe, that POST and one
    write of the credential file; the file then holds the refreshed token
    set, and the access token of that set is what the caller gets. *)
Theorem refresh_once_on_401 (unquote : string -> string) (env : Env) (w : World)
  (content : string) (T : dict) (a r : value) (cid csec : string) :
  token_file w = Some content ->
  json_loads content = Some T ->
  dict_get "access_token" T = Some a ->
  dict_get "refresh_token" T = Some r ->
  api_me env (bearer a) = 401%Z ->
  configured env cid csec ->
  (exists new : list event,
      trace (snd (get_access_token unquote env w)) = trace w ++ new /\
      count is_refresh_post new = 1 /\
      count is_post new = 1 /\
      count is_auth_flow new = 0) /\
  (forall (d : dict) (a' : value),
      is_success (status_code (token_endpoint env (refresh_form r) (cid, csec)))
      = true ->
      json_loads (text (token_endpoint env (refresh_form r) (cid, csec)))
      = Some d ->
      dict_get "access_token" d = Some a' ->
      let T' := with_refresh_token r d in
      get_access_token unquote env w =
        (Ok a',
         set_token_file (Some (json_dumps T'))
           (add_events [EvGet API_ME_URL (bearer a);
                        EvPost SPOTIFY_TOKEN_URL (refresh_form r) (cid, csec);
                        EvWrite (json_dumps T')] w)) /\
      dict_get "access_token" T' = Some a').
Proof.
  intros Hfile Hjson Ha Hr H401 Hcfg.
  assert (Hrun : get_access_token unquote env w =
                 bind (refresh_access_token env r) (dict_item "access_token")
                      (add_events [EvGet API_ME_URL (bearer a)] w)).
  { rewrite (get_access_token_probe unquote env w content T a Hfile Hjson Ha).
    rewrite H401. cbn [Z.eqb Pos.eqb].
    unfold bind, dict_item at 1. rewrite Hr. reflexivity. }
  rewrite Hrun. clear Hrun. unfold bind. split.
  - destruct (refresh_access_token_cases env r
                (add_events [EvGet API_ME_URL (bearer a)] w) cid csec Hcfg)
      as (res & f & tail & -> & Hpost & Hflow & _).
    exists (EvGet API_ME_URL (bearer a)
            :: EvPost SPOTIFY_TOKEN_URL (refresh_form r) (cid, csec) :: tail).
    pose proof (no_post_no_refresh_post tail Hpost) as Hrefresh.
    split.
    + destruct res as [tokens|e]; [unfold dict_item;
        destruct (dict_get "access_token" tokens)|];
        cbn [snd trace add_events]; rewrite <- app_assoc; reflexivity.
    + unfold count in *. cbn. rewrite Hpost, Hflow, Hrefresh. repeat split.
  - intros d a' Hok Hreply Ha'.
    set (T' := with_refresh_token r d).
    assert (HT' : dict_get "access_token" T' = Some a').
    { unfold T', with_refresh_token.
      destruct (dict_has "refresh_token" d); [exact Ha'|].
      rewrite dict_get_set_other by discriminate. exact Ha'. }
    split; [|exact HT'].
    rewrite (refresh_access_token_ok env r _ cid csec d Hcfg Hok Hreply).
    fold T'. unfold dict_item. rewrite HT'.
    unfold ret, set_token_file, add_events.
    cbn [token_file auth_code listening live_threads trace].
    rewrite <- app_assoc. reflexivity.
Qed.

Lemma refresh_once_on_401_witness :
  (exists new : list event,
      trace (snd (get_access_token unquote_bytes (test_env None 401)
                    (stored old_tokens)))
      = trace (stored old_tokens) ++ new /\
      count is_refresh_post new = 1 /\
      count is_post new = 1 /\
      count is_auth_flow new = 0) /\
  (let T' := with_refresh_token (VStr "xyz") new_tokens_reply in
   get_access_token unquote_bytes (test_env None 401) (stored old_tokens) =
     (Ok (VStr "def"),
      set_token_file (Some (json_dumps T'))
        (add_events [EvGet API_ME_URL (bearer (VStr "abc"));
                     EvPost SPOTIFY_TOKEN_URL (refresh_form (VStr "xyz"))
                       ("test-id", "test-secret");
                     EvWrite (json_dumps T')] (stored old_tokens))) /\
   dict_get "access_token" T' = Some (VStr "def")).
Proof.
  assert (Hcfg : configured (test_env None 401) "test-id" "test-secret")
    by (repeat split).
  destruct (refresh_once_on_401 unquote_bytes (test_env None 401)
              (stored old_tokens) (json_dumps old_tokens) old_tokens
              (VStr "abc") (VStr "xyz") "test-id" "test-secret"
              eq_refl eq_refl eq_refl eq_refl eq_refl Hcfg) as [Hone Hgood].
  split; [exact Hone|].
  exact (Hgood new_tokens_reply (VStr "def") eq_refl eq_refl eq_refl).
Defined.

(** C3. With a token set in the store and a probe answered with any status
    but 401, [get_access_token] returns the cached access token and does
    nothing besides the probe: no exchange, no write.  The outcome is the
    same for every stored token set that differs from this one only in
    [expires_in], so the expiry the provider reported plays no part. *)
Theorem cached_token_unless_401 (unquote : string -> string) (env : Env)
  (w : World) (content : string) (T : dict) (a : value) :
  token_file w = Some content ->
  json_loads content = Some T ->
  dict_get "access_token" T = Some a ->
  api_me env (bearer a) <> 401%Z ->
  get_access_token unquote env w =
    (Ok a, add_events [EvGet API_ME_URL (bearer a)] w) /\
  count is_post [EvGet API_ME_URL (bearer a)] = 0 /\
  forall (content' : string) (T' : dict),
    json_loads content' = Some T' ->
    (forall k, k <> "expires_in" -> dict_get k T' = dict_get k T) ->
    get_access_token unquote env (set_token_file (Some content') w) =
      (Ok a, add_events [EvGet API_ME_URL (bearer a)]
               (set_token_file (Some content') w)).
Proof.
  intros Hfile Hjson Ha Hst. split; [|split; [reflexivity|]].
  - exact (get_access_token_cached unquote env w content T a Hfile Hjson Ha Hst).
  - intros content' T' Hjson' Hsame.
    apply (get_access_token_cached unquote env _ content' T' a);
      [reflexivity | exact Hjson' | | exact Hst].
    rewrite Hsame by discriminate. exact Ha.
Qed.

Lemma cached_token_unless_401_witness :
  get_access_token unquote_bytes (test_env None 503) (stored old_tokens) =
    (Ok (VStr "abc"),
     add_events [EvGet API_ME_URL (bearer (VStr "abc"))] (stored old_tokens)) /\
  count is_post [EvGet API_ME_URL (bearer (VStr "abc"))] = 0 /\
  forall (content' : string) (T' : dict),
    json_loads content' = Some T' ->
    (forall k, k <> "expires_in" -> dict_get k T' = dict_get k old_tokens) ->
    get_access_token unquote_bytes (test_env None 503)
      (set_token_file (Some content') (stored old_tokens)) =
      (Ok (VStr "abc"),
       add_events [EvGet API_ME_URL (bearer (VStr "abc"))]
         (set_token_file (Some content') (stored old_tokens))).
Proof.
  apply (cached_token_unless_401 unquote_bytes (test_env None 503)
           (stored old_tokens) (json_dumps old_tokens) old_tokens (VStr "abc"));
    try reflexivity.
  discriminate.
Defined.

(** ** Missing client secrets *)

Lemma authorize_unconfigured (unquote : string -> string) (env : Env) (w : World) :
  falsy (environ env "SPOTIFY_CLIENT_ID") = true \/
  falsy (environ env "SPOTIFY_CLIENT_SECRET") = true ->
  authorize unquote env w = (Raise (RuntimeError MISSING_CREDENTIALS), w).
Proof.
  intros H. unfold authorize, bind at 1.
  now rewrite (_get_credentials_missing env w H).
Qed.

Lemma refresh_unconfigured (env : Env) (r : value) (w : World) :
  falsy (environ env "SPOTIFY_CLIENT_ID") = true \/
  falsy (environ env "SPOTIFY_CLIENT_SECRET") = true ->
  refresh_access_token env r w = (Raise (RuntimeError MISSING_CREDENTIALS), w).
Proof.
  intros H. unfold refresh_access_token, bind at 1.
  now rewrite (_get_credentials_missing env w H).
Qed.

(** C6. When the client id or the client secret is absent from the
    environment (or empty), [authorize], which holds the authorization-code
    exchange, and [refresh_access_token] both raise the missing-credentials
    error and leave the world as it was: nothing is posted, bound, opened or
    written.  [get_access_token] does not try again: whatever the store
    holds, no call of it reaches the token endpoint. *)
Theorem missing_credentials_fail_fast (unquote : string -> string) (env : Env) :
  falsy (environ env "SPOTIFY_CLIENT_ID") = true \/
  falsy (environ env "SPOTIFY_CLIENT_SECRET") = true ->
  (forall w, authorize unquote env w
             = (Raise (RuntimeError MISSING_CREDENTIALS), w)) /\
  (forall r w, refresh_access_token env r w
               = (Raise (RuntimeError MISSING_CREDENTIALS), w)) /\
  (forall w, exists new : list event,
      trace (snd (get_access_token unquote env w)) = trace w ++ new /\
      count is_post new = 0).
Proof.
  intros H. split; [|split].
  - intros w. now apply authorize_unconfigured.
  - intros r w. now apply refresh_unconfigured.
  - intros w.
    assert (Hnil : forall w0 : World, trace w0 = trace w0 ++ [] /\
                                      count is_post [] = 0)
      by (intros w0; now rewrite app_nil_r).
    destruct (token_file w) as [content|] eqn:Hfile.
    + destruct (json_loads content) as [T|] eqn:Hjson.
      * destruct T as [|kv T'].
        -- exists []. unfold get_access_token, bind at 1, _load_tokens.
           rewrite Hfile, Hjson. unfold bind.
           rewrite (authorize_unconfigured unquote env w H). apply Hnil.
        -- destruct (dict_get "access_token" (kv :: T')) as [a|] eqn:Ha.
           ++ exists [EvGet API_ME_URL (bearer a)].
              rewrite (get_access_token_probe unquote env w content _ a
                         Hfile Hjson Ha).
              destruct (Z.eqb (api_me env (bearer a)) 401).
              ** unfold bind, dict_item.
                 destruct (dict_get "refresh_token" (kv :: T')) as [r|].
                 --- unfold ret. rewrite (refresh_unconfigured env r _ H).
                     split; reflexivity.
                 --- split; reflexivity.
              ** unfold bind, ret, dict_item. rewrite Ha. split; reflexivity.
           ++ exists [].
              rewrite (get_access_token_keyless unquote env w content _
                         Hfile Hjson ltac:(discriminate) Ha).
              apply Hnil.
      * exists []. unfold get_access_token, bind, _load_tokens.
        rewrite Hfile, Hjson. apply Hnil.
    + exists []. unfold get_access_token, bind at 1, _load_tokens.
      rewrite Hfile. unfold bind.
      rewrite (authorize_unconfigured unquote env w H). apply Hnil.
Qed.

Lemma missing_credentials_fail_fast_witness :
  (forall w, authorize unquote_bytes unconfigured_env w
             = (Raise (RuntimeError MISSING_CREDENTIALS), w)) /\
  (forall r w, refresh_access_token unconfigured_env r w
               = (Raise (RuntimeError MISSING_CREDENTIALS), w)) /\
  (forall w, exists new : list event,
      trace (snd (get_access_token unquote_bytes unconfigured_env w))
      = trace w ++ new /\
      count is_post new = 0).
Proof.
  apply (missing_credentials_fail_fast unquote_bytes unconfigured_env).
  left. reflexivity.
Defined.

(** ** The callback handler *)

Lemma dict_get_set_eq {A : Type} (k : string) (v : A) (d : list (string * A)) :
  dict_get k (dict_set k v d) = Some v.
Proof.
  induction d as [|[k' v'] d IH]; simpl.
  - now rewrite String.eqb_refl.
  - destruct (String.eqb k k') eqn:E; simpl; rewrite E; [reflexivity | exact IH].
Qed.

(** [parse_qs] gives a name the list of all its values, in the order of the
    fields. *)
Lemma parse_qs_add_get (k : string) (fields : list (string * string)) :
  forall acc : list (string * list string),
    dict_get k (fold_left parse_qs_add fields acc) =
    match dict_get k acc, values_of k fields with
    | None, [] => None
    | None, vs => Some vs
    | Some old, vs => Some (old ++ vs)
    end.
Proof.
  induction fields as [|[n v] fields IH]; intros acc; simpl.
  - destruct (dict_get k acc); [now rewrite app_nil_r | reflexivity].
  - rewrite IH. unfold values_of. simpl. unfold parse_qs_add. simpl.
    destruct (String.eqb_spec k n) as [->|Hne].
    + destruct (dict_get n acc) as [old|]; rewrite dict_get_set_eq; simpl.
      * now rewrite <- app_assoc.
      * reflexivity.
    + destruct (dict_get n acc) as [old|];
        rewrite dict_get_set_other by exact Hne; reflexivity.
Qed.

Lemma parse_qs_get (unquote : string -> string) (k qs : string) :
  dict_get k (parse_qs unquote qs) =
  match values_of k (parse_qsl unquote qs) with
  | [] => None
  | vs => Some vs
  end.
Proof.
  unfold parse_qs. rewrite parse_qs_add_get. reflexivity.
Qed.

Lemma first_value_values_of (k : string) (fields : list (string * string)) :
  first_value k fields =
  match values_of k fields with
  | [] => None
  | v :: _ => Some v
  end.
Proof.
  unfold first_value, values_of.
  induction fields as [|[n v] fields IH]; simpl; [reflexivity|].
  destruct (String.eqb k n); [reflexivity | exact IH].
Qed.

Lemma parse_field_blank (unquote : string -> string) (field : string) :
  snd (split_first "=" field) = None \/
  snd (split_first "=" field) = Some EmptyString ->
  parse_field unquote field = [].
Proof.
  intros H. unfold parse_field.
  destruct (str_empty field); [reflexivity|].
  destruct (split_first "=" field) as [n [v|]]; simpl in H;
    destruct H as [H | H]; try discriminate; try reflexivity.
  injection H as ->. reflexivity.
Qed.

(** [urlsplit] cuts the URL as [cut_url] does, and raises on the network
    location only. *)
Lemma urlsplit_cases (env : Env) (url : string) :
  urlsplit env url =
  match netloc_error env (url_netloc (cut_url url)) with
  | Some msg => Raise (URLValueError msg)
  | None => Ok (cut_url url)
  end.
Proof.
  unfold urlsplit, cut_url.
  destruct (split_scheme _) as [scheme rest].
  destruct (split_netloc rest) as [netloc rest'].
  destruct (cut "#" rest') as [rest'' fragment].
  destruct (cut "?" rest'') as [path query].
  reflexivity.
Qed.

Lemma urlsplit_query (env : Env) (url : string) (parts : SplitResult) :
  urlsplit env url = Ok parts -> url_query parts = urlparse_query url.
Proof.
  rewrite urlsplit_cases.
  destruct (netloc_error env _); [discriminate|].
  intros [= <-]. reflexivity.
Qed.

(** A character of a part of the URL is a character of the URL. *)
Lemma str_contains_lstrip (c : ascii) (p : ascii -> bool) (s : string) :
  str_contains c (lstrip p s) = true -> str_contains c s = true.
Proof.
  induction s as [|c' s IH]; simpl; [trivial|].
  destruct (p c'); [|trivial].
  intros H. rewrite (IH H). apply orb_true_r.
Qed.

Lemma str_contains_remove_chars (c : ascii) (p : ascii -> bool) (s : string) :
  str_contains c (remove_chars p s) = true -> str_contains c s = true.
Proof.
  induction s as [|c' s IH]; simpl; [trivial|].
  destruct (p c'); simpl.
  - intros H. rewrite (IH H). apply orb_true_r.
  - destruct (ascii_eqb c' c); [trivial | exact IH].
Qed.

Lemma str_contains_split_first (c sep : ascii) (s : string) :
  match snd (split_first sep s) with
  | Some rest => str_contains c rest = true -> str_contains c s = true
  | None => True
  end.
Proof.
  induction s as [|c' s IH]; simpl; [trivial|].
  destruct (ascii_eqb c' sep); simpl.
  - intros H. rewrite H. apply orb_true_r.
  - destruct (split_first sep s) as [a [rest|]]; simpl in *; [|trivial].
    intros H. rewrite (IH H). apply orb_true_r.
Qed.

Lemma str_contains_split_scheme (c : ascii) (s : string) :
  str_contains c (snd (split_scheme s)) = true -> str_contains c s = true.
Proof.
  unfold split_scheme.
  pose proof (str_contains_split_first c ":" s) as H.
  destruct (split_first ":" s) as [[|c' r] [rest|]]; simpl in *; trivial.
  destruct (is_ascii_alpha c' && _)%bool; simpl; trivial.
Qed.

Lemma str_contains_break_at (c : ascii) (p : ascii -> bool) (s : string) :
  str_contains c (fst (break_at p s)) = true -> str_contains c s = true.
Proof.
  induction s as [|c' s IH]; simpl; [trivial|].
  destruct (p c'); simpl; [discriminate|].
  destruct (break_at p s) as [a b]; simpl in *.
  destruct (ascii_eqb c' c); [trivial | exact IH].
Qed.

Lemma str_contains_split_netloc (c : ascii) (s : string) :
  str_contains c (fst (split_netloc s)) = true -> str_contains c s = true.
Proof.
  unfold split_netloc.
  destruct s as [|c1 [|c2 r]]; try discriminate.
  destruct (ascii_eqb c1 "/" && ascii_eqb c2 "/")%bool; [|discriminate].
  intros H. apply str_contains_break_at in H. simpl.
  rewrite H. now rewrite !orb_true_r.
Qed.

Lemma str_contains_netloc (c : ascii) (url : string) :
  str_contains c (url_netloc (cut_url url)) = true -> str_contains c url = true.
Proof.
  unfold cut_url. intros H.
  apply str_contains_lstrip with (p := is_c0_control_or_space).
  apply str_contains_remove_chars with (p := is_unsafe_url_byte).
  apply str_contains_split_scheme.
  apply str_contains_split_netloc.
  destruct (split_scheme _) as [scheme rest]. cbn [snd].
  destruct (split_netloc rest) as [netloc rest'].
  destruct (cut "#" rest') as [rest'' fragment].
  destruct (cut "?" rest'') as [path query].
  exact H.
Qed.

(** A URL without a square bracket is one that [urlsplit] takes. *)
Lemma urlsplit_no_bracket (env : Env) (url : string) :
  str_contains "[" url = false ->
  str_contains "]" url = false ->
  urlsplit env url = Ok (cut_url url).
Proof.
  intros Hopen Hclose. rewrite urlsplit_cases. unfold netloc_error.
  destruct (str_contains "[" (url_netloc (cut_url url))) eqn:E1.
  - apply str_contains_netloc in E1. congruence.
  - destruct (str_contains "]" (url_netloc (cut_url url))) eqn:E2.
    + apply str_contains_netloc in E2. congruence.
    + reflexivity.
Qed.

Lemma do_GET_cases (unquote : string -> string) (env : Env) (path : string)
  (w : World) :
  do_GET unquote env path w =
  match urlsplit env path with
  | Raise e => (Raise e, w)
  | Ok _ =>
      match first_value "code" (parse_qsl unquote (urlparse_query path)) with
      | Some code => (Ok (html_reply 200 SUCCESS_PAGE), capture code w)
      | None =>
          (Ok (html_reply 400
                 (failure_page
                    (shown_error (parse_qsl unquote (urlparse_query path))))),
           w)
      end
  end.
Proof.
  unfold do_GET, bind at 1, urlparse.
  destruct (urlsplit env path) as [parts|e] eqn:Hsplit; [|reflexivity].
  rewrite (urlsplit_query env path parts Hsplit).
  unfold shown_error.
  rewrite !parse_qs_get, !first_value_values_of.
  destruct (values_of "code" _) as [|code codes]; [|reflexivity].
  destruct (values_of "error" _) as [|e es]; reflexivity.
Qed.

(** C5, as the code has it.  [urlparse] takes every request target that has
    no square bracket; a target it refuses makes the handler raise, with
    nothing stored and no reply.  Of the query of a target it takes,
    [parse_qs] drops a field whose value is empty and a field without [=].
    If one of the remaining fields is named [code], the handler stores the
    first such value in [_CallbackHandler.auth_code] and replies 200 with
    the success page.  Otherwise it stores nothing and replies 400 with a
    page that shows the first remaining [error] value, or [unknown] when
    there is none. *)
Theorem do_GET_reply (unquote : string -> string) (env : Env) (path : string)
  (w : World) :
  let fields := parse_qsl unquote (urlparse_query path) in
  (forall field,
      snd (split_first "=" field) = None \/
      snd (split_first "=" field) = Some EmptyString ->
      parse_field unquote field = []) /\
  (str_contains "[" path = false -> str_contains "]" path = false ->
   urlsplit env path = Ok (cut_url path)) /\
  do_GET unquote env path w =
  match urlsplit env path with
  | Raise e => (Raise e, w)
  | Ok _ =>
      match first_value "code" fields with
      | Some code => (Ok (html_reply 200 SUCCESS_PAGE), capture code w)
      | None => (Ok (html_reply 400 (failure_page (shown_error fields))), w)
      end
  end.
Proof.
  intros fields. split; [|split].
  - intros field. apply parse_field_blank.
  - apply urlsplit_no_bracket.
  - apply do_GET_cases.
Qed.

(** The two redirects of the design document. *)
Example do_GET_code :
  do_GET unquote_bytes (test_env None 200) "/callback?code=ABC123" first_run =
  (Ok (html_reply 200 SUCCESS_PAGE), capture "ABC123" first_run).
Proof. reflexivity. Qed.

Example do_GET_error :
  do_GET unquote_bytes (test_env None 200) "/callback?error=access_denied"
    first_run =
  (Ok (html_reply 400 (failure_page "access_denied")), first_run).
Proof. reflexivity. Qed.

(** A request target whose network location opens a bracket and does not
    close it: [urlparse] raises, and so does the handler. *)
Example do_GET_invalid_url :
  do_GET unquote_bytes (test_env None 200) "http://[::1?code=ABC123" first_run =
  (Raise (URLValueError INVALID_IPV6_URL), first_run).
Proof. reflexivity. Qed.

(** C5, as the design document has it, fails on a redirect whose [code] is
    empty: the query string contains a [code] parameter, and the handler
    stores nothing and replies 400. *)
Lemma do_GET_blank_code :
  has_param "code" (urlparse_query "/callback?code=") = true /\
  do_GET unquote_bytes (test_env None 200) "/callback?code=" first_run =
  (Ok (html_reply 400 (failure_page "unknown")), first_run).
Proof. split; reflexivity. Qed.

(** ** The authorization flow *)

(** With the client secrets configured and the port free, [authorize] runs
    the listener to its close and goes on from the captured code. *)
Lemma authorize_listened (unquote : string -> string) (env : Env) (w : World)
  (cid csec : string) :
  configured env cid csec ->
  listening w = false ->
  authorize unquote env w =
  after_close env (cid, csec) (listened unquote env cid w).
Proof.
  intros Hcfg Hfree.
  unfold authorize, bind at 1.
  rewrite (_get_credentials_configured env cid csec w Hcfg).
  unfold bind at 1, HTTPServer_bind. rewrite Hfree.
  unfold bind at 1, set_auth_code.
  unfold bind at 1, thread_start.
  unfold bind at 1, emit at 1.
  unfold bind at 1, thread_join, listened.
  cbn [token_file auth_code listening live_threads trace fst].
  destruct (incoming env) as [path|].
  - unfold bind at 1, handle_request. rewrite do_GET_cases.
    unfold reply_to, shown_error.
    destruct (urlsplit env path) as [parts|e];
      [destruct (first_value "code" (parse_qsl unquote (urlparse_query path)))
         as [code|]|];
      try unfold bind at 1; unfold bind at 1, emit, thread_exit, capture;
      cbn [token_file auth_code listening live_threads trace Nat.pred];
      unfold bind at 1, server_close;
      cbn [token_file auth_code listening live_threads trace];
      unfold listen_events; rewrite <- !app_assoc; reflexivity.
  - unfold emit. unfold bind at 1, server_close.
    cbn [token_file auth_code listening live_threads trace].
    unfold listen_events. rewrite <- !app_assoc. reflexivity.
Qed.



Lemma after_close_no_code (env : Env) (creds : string * string) (w : World) :
  auth_code w = None ->
  after_close env creds w = (Raise (RuntimeError TIMED_OUT_OR_FAILED), w).
Proof.
  intros H. unfold after_close, bind, get_auth_code. now rewrite H.
Qed.





(** Up to the close, [authorize] leaves the credential file alone, posts
    and writes nothing, and closes the socket once. *)
Lemma listened_frame (unquote : string -> string) (env : Env) (cid : string)
  (w : World) :
  token_file (listened unquote env cid w) = token_file w /\
  exists new : list event,
    trace (listened unquote env cid w) = trace w ++ new /\
    count is_post new = 0 /\
    count is_write new = 0 /\
    count is_close new = 1.
Proof.
  unfold listened.
  destruct (incoming env) as [path|]; [destruct (urlsplit env path)|];
    cbn [token_file trace]; (split; [reflexivity|]);
    eexists; (split; [reflexivity|]); repeat split.
Qed.

(** C4, as the code has it.  With the client secrets configured and the port
    free: when no request comes within the 120 seconds, and likewise when the
    request that comes brings no code (a redirect with [error] is one),
    [authorize] raises the one [RuntimeError] with the message
    [Authorization timed out or failed.], posts nothing and leaves the
    credential file alone. *)
Theorem authorize_without_code (unquote : string -> string) (env : Env)
  (w : World) (cid csec : string) :
  configured env cid csec ->
  listening w = false ->
  incoming env = None \/
  (exists path, incoming env = Some path /\
     first_value "code" (parse_qsl unquote (urlparse_query path)) = None) ->
  fst (authorize unquote env w) = Raise (RuntimeError TIMED_OUT_OR_FAILED) /\
  token_file (snd (authorize unquote env w)) = token_file w /\
  exists new : list event,
    trace (snd (authorize unquote env w)) = trace w ++ new /\
    count is_post new = 0.
Proof.
  intros Hcfg Hfree Hin.
  rewrite (authorize_listened unquote env w cid csec Hcfg Hfree).
  assert (Hcode : auth_code (listened unquote env cid w) = None).
  { unfold listened. destruct Hin as [-> | (path & -> & Hnone)];
      [reflexivity|].
    destruct (urlsplit env path); [exact Hnone | reflexivity]. }
  rewrite (after_close_no_code env (cid, csec) _ Hcode). cbn [fst snd].
  split; [reflexivity|].
  destruct (listened_frame unquote env cid w) as (Hfile & new & Htrace & Hpost & _).
  split; [exact Hfile|].
  exists new. split; assumption.
Qed.

Lemma authorize_without_code_witness :
  fst (authorize unquote_bytes (test_env None 200) first_run)
  = Raise (RuntimeError TIMED_OUT_OR_FAILED) /\
  token_file (snd (authorize unquote_bytes (test_env None 200) first_run))
  = token_file first_run /\
  exists new : list event,
    trace (snd (authorize unquote_bytes (test_env None 200) first_run))
    = trace first_run ++ new /\
    count is_post new = 0.
Proof.
  apply (authorize_without_code unquote_bytes (test_env None 200) first_run
           "test-id" "test-secret").
  - repeat split.
  - reflexivity.
  - left. reflexivity.
Defined.

(** C4, as the design document has it, fails: a timeout and a denial by the
    provider end in the very same exception, so the caller cannot tell them
    apart. *)
Lemma timeout_raises_as_denial :
  fst (authorize unquote_bytes (test_env None 200) first_run)
  = Raise (RuntimeError TIMED_OUT_OR_FAILED) /\
  fst (authorize unquote_bytes
         (test_env (Some "/callback?error=access_denied") 200) first_run)
  = Raise (RuntimeError TIMED_OUT_OR_FAILED).
Proof. split; reflexivity. Qed.




(** ** Writing the credential file *)



(** ** The effects of one call, whatever the world *)






(** ** The scenario of the design document

    First run: no credential file; the user consents, the code is exchanged
    and the store holds the granted token set.  Next call: the API answers
    401 to the old access token; one refresh is made, the store holds the new
    access token and the refresh token is the one it had. *)
Example first_run_then_refresh :
  let env := test_env (Some "/callback?code=ABC123") 401 in
  let run1 := get_access_token unquote_bytes env first_run in
  let run2 := get_access_token unquote_bytes env (snd run1) in
  fst run1 = Ok (VStr "abc") /\
  _load_tokens (snd run1) = (Ok (Some old_tokens), snd run1) /\
  fst run2 = Ok (VStr "def") /\
  fst (_load_tokens (snd run2)) =
    Ok (Some (new_tokens_reply ++ [("refresh_token", VStr "xyz")])) /\
  count is_refresh_post (trace (snd run2)) = 1 /\
  count is_post (trace (snd run2)) = 2.
Proof. vm_compute. repeat split. Qed.

(** * Further facts about [auth.py] *)

Lemma after_close_granted (env : Env) (creds : string * string) (w : World)
  (code : string) (d : dict) :
  auth_code w = Some code ->
  str_empty code = false ->
  is_success (status_code (token_endpoint env (code_form code) creds)) = true ->
  json_loads (text (token_endpoint env (code_form code) creds)) = Some d ->
  after_close env creds w =
  (Ok d, set_token_file (Some (json_dumps d))
           (add_events [EvPost SPOTIFY_TOKEN_URL (code_form code) creds;
                        EvWrite (json_dumps d)] w)).
Proof.
  intros Hcode Hne Hok Hjson.
  unfold after_close, bind at 1, get_auth_code. rewrite Hcode.
  destruct code as [|c r]; [discriminate|].
  fold (code_form (String c r)).
  unfold bind at 1, httpx_post, bind at 1, emit, ret at 1.
  cbv beta iota.
  unfold bind at 1, raise_for_status. rewrite Hok.
  unfold ret at 1. cbv beta iota.
  unfold bind at 1, response_json. rewrite Hjson.
  unfold ret at 1. cbv beta iota.
  unfold bind. rewrite _save_tokens_result. unfold ret, set_token_file, add_events.
  cbn [token_file auth_code listening live_threads trace].
  rewrite <- app_assoc. reflexivity.
Qed.

Lemma after_close_refused (env : Env) (creds : string * string) (w : World)
  (code : string) :
  auth_code w = Some code ->
  str_empty code = false ->
  is_success (status_code (token_endpoint env (code_form code) creds)) = false ->
  after_close env creds w =
  (Raise (HTTPStatusError (status_code (token_endpoint env (code_form code) creds))),
   add_events [EvPost SPOTIFY_TOKEN_URL (code_form code) creds] w).
Proof.
  intros Hcode Hne Hno.
  unfold after_close, bind at 1, get_auth_code. rewrite Hcode.
  destruct code as [|c r]; [discriminate|].
  fold (code_form (String c r)).
  unfold bind at 1, httpx_post, bind at 1, emit, ret at 1.
  cbv beta iota.
  unfold bind at 1, raise_for_status. rewrite Hno.
  reflexivity.
Qed.

(** The world when the listener has served a request that brought a code. *)
Lemma listened_with_code (unquote : string -> string) (env : Env) (cid : string)
  (w : World) (path code : string) (parts : SplitResult) :
  incoming env = Some path ->
  urlsplit env path = Ok parts ->
  first_value "code" (parse_qsl unquote (url_query parts)) = Some code ->
  listened unquote env cid w =
  mkWorld (token_file w) (Some code) (held_by (live_threads w)) (live_threads w)
          (trace w ++ [EvBind; EvThreadStart;
                       EvBrowser SPOTIFY_AUTH_URL (auth_params cid);
                       EvRequest path (html_reply 200 SUCCESS_PAGE);
                       EvThreadExit; EvJoin true; EvServerClose]).
Proof.
  intros Hin Hsplit Hcode. unfold listened, reply_to. rewrite Hin, Hsplit.
  rewrite (urlsplit_query env path parts Hsplit) in Hcode.
  cbv zeta. rewrite Hcode. reflexivity.
Qed.

(** X1. With the client secrets configured, the port free and no handler
    thread around, a redirect whose target [urlparse] takes and whose query
    brings a code, and a provider that accepts it: [authorize] posts the
    [authorization_code] grant with that very code and the fixed redirect
    URI, under the client's basic auth, writes the decoded reply to the
    credential file and returns it; the listener's events come first, the
    port is free again and no thread is left. *)
Theorem authorize_exchanges_code (unquote : string -> string) (env : Env)
  (w : World) (cid csec path code : string) (parts : SplitResult) (d : dict) :
  configured env cid csec ->
  listening w = false ->
  live_threads w = 0 ->
  incoming env = Some path ->
  urlsplit env path = Ok parts ->
  first_value "code" (parse_qsl unquote (url_query parts)) = Some code ->
  str_empty code = false ->
  is_success (status_code (token_endpoint env (code_form code) (cid, csec))) = true ->
  json_loads (text (token_endpoint env (code_form code) (cid, csec))) = Some d ->
  authorize unquote env w =
  (Ok d,
   mkWorld (Some (json_dumps d)) (Some code) false 0
     (trace w ++ [EvBind; EvThreadStart;
                  EvBrowser SPOTIFY_AUTH_URL (auth_params cid);
                  EvRequest path (html_reply 200 SUCCESS_PAGE);
                  EvThreadExit; EvJoin true; EvServerClose;
                  EvPost SPOTIFY_TOKEN_URL (code_form code) (cid, csec);
                  EvWrite (json_dumps d)])).
Proof.
  intros Hcfg Hfree Hnone Hin Hsplit Hcode Hne Hok Hjson.
  rewrite (authorize_listened unquote env w cid csec Hcfg Hfree).
  rewrite (listened_with_code unquote env cid w path code parts Hin Hsplit Hcode).
  rewrite after_close_granted with (code := code) (d := d);
    [| reflexivity | assumption..].
  unfold set_token_file, add_events.
  cbn [token_file auth_code listening live_threads trace].
  rewrite Hnone, <- app_assoc. reflexivity.
Qed.

Lemma authorize_exchanges_code_witness :
  authorize unquote_bytes (test_env (Some "/callback?code=ABC123") 200) first_run =
  (Ok old_tokens,
   mkWorld (Some (json_dumps old_tokens)) (Some "ABC123") false 0
     (trace first_run
      ++ [EvBind; EvThreadStart;
          EvBrowser SPOTIFY_AUTH_URL (auth_params "test-id");
          EvRequest "/callback?code=ABC123" (html_reply 200 SUCCESS_PAGE);
          EvThreadExit; EvJoin true; EvServerClose;
          EvPost SPOTIFY_TOKEN_URL (code_form "ABC123") ("test-id", "test-secret");
          EvWrite (json_dumps old_tokens)])).
Proof.
  apply (authorize_exchanges_code unquote_bytes
           (test_env (Some "/callback?code=ABC123") 200) first_run
           "test-id" "test-secret" "/callback?code=ABC123" "ABC123"
           (cut_url "/callback?code=ABC123") old_tokens);
    try reflexivity.
  repeat split.
Defined.

(** X2. In the same situation with a provider that refuses the code (a
    status outside 200..299): [authorize] raises the HTTP status error after
    its one POST, writes nothing, and the credential file is as it was; the
    request was served, so the port is free. *)
Theorem authorize_refused_writes_nothing (unquote : string -> string) (env : Env)
  (w : World) (cid csec path code : string) (parts : SplitResult) :
  configured env cid csec ->
  listening w = false ->
  live_threads w = 0 ->
  incoming env = Some path ->
  urlsplit env path = Ok parts ->
  first_value "code" (parse_qsl unquote (url_query parts)) = Some code ->
  str_empty code = false ->
  is_success (status_code (token_endpoint env (code_form code) (cid, csec))) = false ->
  fst (authorize unquote env w) =
    Raise (HTTPStatusError
             (status_code (token_endpoint env (code_form code) (cid, csec)))) /\
  token_file (snd (authorize unquote env w)) = token_file w /\
  listening (snd (authorize unquote env w)) = false /\
  exists new : list event,
    trace (snd (authorize unquote env w)) = trace w ++ new /\
    count is_post new = 1 /\ count is_write new = 0.
Proof.
  intros Hcfg Hfree Hnone Hin Hsplit Hcode Hne Hno.
  rewrite (authorize_listened unquote env w cid csec Hcfg Hfree).
  rewrite (listened_with_code unquote env cid w path code parts Hin Hsplit Hcode).
  rewrite after_close_refused with (code := code);
    [| reflexivity | assumption..].
  unfold add_events. cbn [fst snd token_file listening trace].
  rewrite Hnone. repeat split.
  eexists. rewrite <- app_assoc. split; [reflexivity|]. split; reflexivity.
Qed.

Lemma authorize_refused_writes_nothing_witness :
  fst (authorize unquote_bytes (refusing_env (Some "/callback?code=ABC123") 200)
         (stored old_tokens)) =
    Raise (HTTPStatusError 400) /\
  token_file (snd (authorize unquote_bytes
                     (refusing_env (Some "/callback?code=ABC123") 200)
                     (stored old_tokens)))
  = token_file (stored old_tokens) /\
  listening (snd (authorize unquote_bytes
                    (refusing_env (Some "/callback?code=ABC123") 200)
                    (stored old_tokens))) = false /\
  exists new : list event,
    trace (snd (authorize unquote_bytes
                  (refusing_env (Some "/callback?code=ABC123") 200)
                  (stored old_tokens)))
    = trace (stored old_tokens) ++ new /\
    count is_post new = 1 /\ count is_write new = 0.
Proof.
  apply (authorize_refused_writes_nothing unquote_bytes
           (refusing_env (Some "/callback?code=ABC123") 200) (stored old_tokens)
           "test-id" "test-secret" "/callback?code=ABC123" "ABC123"
           (cut_url "/callback?code=ABC123"));
    try reflexivity.
  repeat split.
Defined.



(** With no credential file, or one that holds an empty object,
    [get_access_token] runs [authorize] and reads the access token of what
    it returns. *)
Lemma get_access_token_authorizes (unquote : string -> string) (env : Env)
  (w : World) :
  token_file w = None \/
  (exists content, token_file w = Some content /\ json_loads content = Some []) ->
  get_access_token unquote env w =
  bind (authorize unquote env) (dict_item "access_token") w.
Proof.
  intros [Hnone | (content & Hfile & Hjson)];
    unfold get_access_token, bind at 1, _load_tokens.
  - rewrite Hnone. reflexivity.
  - rewrite Hfile, Hjson. reflexivity.
Qed.

(** X4. On the first run, that is with no credential file, and just as well
    with a file that holds an empty object, [get_access_token] sends no
    probe: it runs the authorization flow, and when the redirect, whose
    target [urlparse] takes, brings a code that the provider accepts it
    stores the granted token set and returns its access token. *)
Theorem first_run_authorizes (unquote : string -> string) (env : Env)
  (w : World) (cid csec path code : string) (parts : SplitResult) (d : dict)
  (a : value) :
  token_file w = None \/
  (exists content, token_file w = Some content /\ json_loads content = Some []) ->
  configured env cid csec ->
  listening w = false ->
  live_threads w = 0 ->
  incoming env = Some path ->
  urlsplit env path = Ok parts ->
  first_value "code" (parse_qsl unquote (url_query parts)) = Some code ->
  str_empty code = false ->
  is_success (status_code (token_endpoint env (code_form code) (cid, csec))) = true ->
  json_loads (text (token_endpoint env (code_form code) (cid, csec))) = Some d ->
  dict_get "access_token" d = Some a ->
  get_access_token unquote env w =
  (Ok a,
   mkWorld (Some (json_dumps d)) (Some code) false 0
     (trace w ++ [EvBind; EvThreadStart;
                  EvBrowser SPOTIFY_AUTH_URL (auth_params cid);
                  EvRequest path (html_reply 200 SUCCESS_PAGE);
                  EvThreadExit; EvJoin true; EvServerClose;
                  EvPost SPOTIFY_TOKEN_URL (code_form code) (cid, csec);
                  EvWrite (json_dumps d)])).
Proof.
  intros Hstore Hcfg Hfree Hnone Hin Hsplit Hcode Hne Hok Hjson Ha.
  rewrite (get_access_token_authorizes unquote env w Hstore).
  unfold bind.
  rewrite (authorize_listened unquote env w cid csec Hcfg Hfree).
  rewrite (listened_with_code unquote env cid w path code parts Hin Hsplit Hcode).
  rewrite after_close_granted with (code := code) (d := d);
    [| reflexivity | assumption..].
  unfold dict_item. rewrite Ha.
  unfold ret, set_token_file, add_events.
  cbn [token_file auth_code listening live_threads trace].
  rewrite Hnone, <- app_assoc. reflexivity.
Qed.

Lemma first_run_authorizes_witness :
  get_access_token unquote_bytes (test_env (Some "/callback?code=ABC123") 200)
    (stored []) =
  (Ok (VStr "abc"),
   mkWorld (Some (json_dumps old_tokens)) (Some "ABC123") false 0
     (trace (stored [])
      ++ [EvBind; EvThreadStart;
          EvBrowser SPOTIFY_AUTH_URL (auth_params "test-id");
          EvRequest "/callback?code=ABC123" (html_reply 200 SUCCESS_PAGE);
          EvThreadExit; EvJoin true; EvServerClose;
          EvPost SPOTIFY_TOKEN_URL (code_form "ABC123") ("test-id", "test-secret");
          EvWrite (json_dumps old_tokens)])).
Proof.
  apply (first_run_authorizes unquote_bytes
           (test_env (Some "/callback?code=ABC123") 200) (stored [])
           "test-id" "test-secret" "/callback?code=ABC123" "ABC123"
           (cut_url "/callback?code=ABC123") old_tokens (VStr "abc"));
    try reflexivity.
  - right. exists (json_dumps []). split; reflexivity.
  - repeat split.
Defined.

(** X5. A credential file that is empty, or holds white space only, makes
    [get_access_token] raise the decoder's error and do nothing else: it
    neither probes nor starts an authorization flow. *)
Theorem blank_file_raises (unquote : string -> string) (env : Env) (w : World)
  (content : string) :
  token_file w = Some content ->
  skip_ws content = EmptyString ->
  get_access_token unquote env w = (Raise JSONDecodeError, w).
Proof.
  intros Hfile Hblank.
  unfold get_access_token, bind, _load_tokens, json_loads.
  rewrite Hfile, Hblank. reflexivity.
Qed.

Lemma blank_file_raises_witness :
  get_access_token unquote_bytes (test_env None 200)
    (mkWorld (Some (String " " (String chr_lf EmptyString))) None false 0 [])
  = (Raise JSONDecodeError,
     mkWorld (Some (String " " (String chr_lf EmptyString))) None false 0 []).
Proof.
  apply (blank_file_raises unquote_bytes (test_env None 200)
           (mkWorld (Some (String " " (String chr_lf EmptyString))) None false 0 [])
           (String " " (String chr_lf EmptyString)));
    reflexivity.
Defined.

Lemma refresh_access_token_refused (env : Env) (r : value) (w : World)
  (cid csec : string) :
  configured env cid csec ->
  is_success (status_code (token_endpoint env (refresh_form r) (cid, csec))) = false ->
  refresh_access_token env r w =
  (Raise (HTTPStatusError
            (status_code (token_endpoint env (refresh_form r) (cid, csec)))),
   add_events [EvPost SPOTIFY_TOKEN_URL (refresh_form r) (cid, csec)] w).
Proof.
  intros Hcfg Hno.
  unfold refresh_access_token, bind at 1.
  rewrite (_get_credentials_configured env cid csec w Hcfg).
  unfold bind at 1, httpx_post, bind at 1, emit, ret at 1.
  cbv beta iota. fold (refresh_form r).
  unfold bind at 1, raise_for_status. rewrite Hno. reflexivity.
Qed.

(** X6. When the probe is answered 401 and the provider refuses the refresh
    (a status outside 200..299), [get_access_token] raises the HTTP status
    error after the probe and the one POST; it writes nothing, the stored
    token set stays as it was, and no authorization flow is started. *)
Theorem refused_refresh_keeps_store (unquote : string -> string) (env : Env)
  (w : World) (content : string) (T : dict) (a r : value) (cid csec : string) :
  token_file w = Some content ->
  json_loads content = Some T ->
  dict_get "access_token" T = Some a ->
  dict_get "refresh_token" T = Some r ->
  api_me env (bearer a) = 401%Z ->
  configured env cid csec ->
  is_success (status_code (token_endpoint env (refresh_form r) (cid, csec))) = false ->
  get_access_token unquote env w =
  (Raise (HTTPStatusError
            (status_code (token_endpoint env (refresh_form r) (cid, csec)))),
   add_events [EvGet API_ME_URL (bearer a);
               EvPost SPOTIFY_TOKEN_URL (refresh_form r) (cid, csec)] w).
Proof.
  intros Hfile Hjson Ha Hr H401 Hcfg Hno.
  rewrite (get_access_token_probe unquote env w content T a Hfile Hjson Ha).
  rewrite H401. cbn [Z.eqb Pos.eqb].
  unfold bind, dict_item at 1. rewrite Hr. unfold ret.
  rewrite (refresh_access_token_refused env r _ cid csec Hcfg Hno).
  unfold add_events. cbn [token_file auth_code listening live_threads trace].
  rewrite <- app_assoc. reflexivity.
Qed.

Lemma refused_refresh_keeps_store_witness :
  get_access_token unquote_bytes (refusing_env None 401) (stored old_tokens) =
  (Raise (HTTPStatusError 400),
   add_events [EvGet API_ME_URL (bearer (VStr "abc"));
               EvPost SPOTIFY_TOKEN_URL (refresh_form (VStr "xyz"))
                 ("test-id", "test-secret")] (stored old_tokens)).
Proof.
  apply (refused_refresh_keeps_store unquote_bytes (refusing_env None 401)
           (stored old_tokens) (json_dumps old_tokens) old_tokens
           (VStr "abc") (VStr "xyz") "test-id" "test-secret");
    try reflexivity.
  repeat split.
Defined.

(** X7. When the probe is answered 401 and the stored token set has no
    [refresh_token], [get_access_token] raises [KeyError] for that key right
    after the probe: nothing is posted or written, and no authorization flow
    is started. *)
Theorem no_refresh_token_raises (unquote : string -> string) (env : Env)
  (w : World) (content : string) (T : dict) (a : value) :
  token_file w = Some content ->
  json_loads content = Some T ->
  dict_get "access_token" T = Some a ->
  dict_get "refresh_token" T = None ->
  api_me env (bearer a) = 401%Z ->
  get_access_token unquote env w =
  (Raise (KeyError "refresh_token"), add_events [EvGet API_ME_URL (bearer a)] w).
Proof.
  intros Hfile Hjson Ha Hr H401.
  rewrite (get_access_token_probe unquote env w content T a Hfile Hjson Ha).
  rewrite H401. cbn [Z.eqb Pos.eqb].
  unfold bind, dict_item at 1. rewrite Hr. reflexivity.
Qed.

Lemma no_refresh_token_raises_witness :
  get_access_token unquote_bytes (test_env None 401) (stored new_tokens_reply) =
  (Raise (KeyError "refresh_token"),
   add_events [EvGet API_ME_URL (bearer (VStr "def"))] (stored new_tokens_reply)).
Proof.
  apply (no_refresh_token_raises unquote_bytes (test_env None 401)
           (stored new_tokens_reply) (json_dumps new_tokens_reply)
           new_tokens_reply (VStr "def"));
    reflexivity.
Defined.

(** X8. When the provider accepts a refresh and its reply carries a
    [refresh_token] of its own, [refresh_access_token] stores and returns
    the reply as it is: the new refresh token takes the place of the one it
    was called with. *)
Theorem refresh_takes_new_refresh_token (env : Env) (r r' : value) (w : World)
  (cid csec : string) (d : dict) :
  configured env cid csec ->
  is_success (status_code (token_endpoint env (refresh_form r) (cid, csec))) = true ->
  json_loads (text (token_endpoint env (refresh_form r) (cid, csec))) = Some d ->
  dict_get "refresh_token" d = Some r' ->
  refresh_access_token env r w =
    (Ok d,
     set_token_file (Some (json_dumps d))
       (add_events [EvPost SPOTIFY_TOKEN_URL (refresh_form r) (cid, csec);
                    EvWrite (json_dumps d)] w)) /\
  _load_tokens (snd (refresh_access_token env r w)) =
    (Ok (Some d), snd (refresh_access_token env r w)).
Proof.
  intros Hcfg Hok Hjson Hr'.
  rewrite (refresh_access_token_ok env r w cid csec d Hcfg Hok Hjson).
  assert (E : with_refresh_token r d = d).
  { unfold with_refresh_token, dict_has. now rewrite Hr'. }
  rewrite E. split; [reflexivity|].
  unfold _load_tokens, set_token_file. cbn [snd token_file].
  rewrite json_loads_dumps by exact (json_loads_nodup _ _ Hjson).
  reflexivity.
Qed.

Lemma refresh_takes_new_refresh_token_witness :
  refresh_access_token rotating_env (VStr "xyz") (stored old_tokens) =
    (Ok rotated_tokens,
     set_token_file (Some (json_dumps rotated_tokens))
       (add_events [EvPost SPOTIFY_TOKEN_URL (refresh_form (VStr "xyz"))
                      ("test-id", "test-secret");
                    EvWrite (json_dumps rotated_tokens)] (stored old_tokens))) /\
  _load_tokens (snd (refresh_access_token rotating_env (VStr "xyz")
                       (stored old_tokens))) =
    (Ok (Some rotated_tokens),
     snd (refresh_access_token rotating_env (VStr "xyz") (stored old_tokens))).
Proof.
  apply (refresh_takes_new_refresh_token rotating_env (VStr "xyz") (VStr "uvw")
           (stored old_tokens) "test-id" "test-secret" rotated_tokens);
    try reflexivity.
  repeat split.
Defined.

(** X9. The credential file keeps no history: after two saves, a load gives
    the token set saved last, whatever was saved first. *)
Theorem last_save_wins (T1 T2 : dict) (w : World) :
  NoDup (keys T2) ->
  let w2 := snd (_save_tokens T2 (snd (_save_tokens T1 w))) in
  _load_tokens w2 = (Ok (Some T2), w2) /\
  token_file w2 = Some (json_dumps T2).
Proof.
  intros Hnd. cbv zeta. rewrite !_save_tokens_result.
  unfold _load_tokens. cbn [snd token_file].
  rewrite json_loads_dumps by exact Hnd. split; reflexivity.
Qed.

Lemma last_save_wins_witness :
  let w2 := snd (_save_tokens new_tokens_reply
                   (snd (_save_tokens old_tokens first_run))) in
  _load_tokens w2 = (Ok (Some new_tokens_reply), w2) /\
  token_file w2 = Some (json_dumps new_tokens_reply).
Proof.
  apply (last_save_wins old_tokens new_tokens_reply first_run).
  repeat constructor; simpl; intuition discriminate.
Defined.

(** X10. A grant without an access token wedges the store.  On a first run
    whose redirect, with a target that [urlparse] takes, brings a code and
    whose provider answers with a non-empty token set that has no
    [access_token], [get_access_token] writes that set to the credential
    file and then raises [KeyError]; from then on every call, in any
    environment, raises the same [KeyError] before sending anything and
    never starts a new authorization flow. *)
Theorem tokenless_grant_wedges (unquote : string -> string) (env : Env)
  (w : World) (cid csec path code : string) (parts : SplitResult) (d : dict) :
  token_file w = None ->
  configured env cid csec ->
  listening w = false ->
  incoming env = Some path ->
  urlsplit env path = Ok parts ->
  first_value "code" (parse_qsl unquote (url_query parts)) = Some code ->
  str_empty code = false ->
  is_success (status_code (token_endpoint env (code_form code) (cid, csec))) = true ->
  json_loads (text (token_endpoint env (code_form code) (cid, csec))) = Some d ->
  d <> [] ->
  dict_get "access_token" d = None ->
  let first := get_access_token unquote env w in
  fst first = Raise (KeyError "access_token") /\
  token_file (snd first) = Some (json_dumps d) /\
  forall env' : Env,
    get_access_token unquote env' (snd first)
    = (Raise (KeyError "access_token"), snd first).
Proof.
  intros Hnone Hcfg Hfree Hin Hsplit Hcode Hne Hok Hjson Hd Ha. cbv zeta.
  rewrite (get_access_token_authorizes unquote env w (or_introl Hnone)).
  unfold bind.
  rewrite (authorize_listened unquote env w cid csec Hcfg Hfree).
  rewrite (listened_with_code unquote env cid w path code parts Hin Hsplit Hcode).
  rewrite after_close_granted with (code := code) (d := d);
    [| reflexivity | assumption..].
  unfold dict_item. rewrite Ha. unfold raise. cbn [fst snd].
  split; [reflexivity|]. split; [reflexivity|].
  intros env'.
  apply (get_access_token_keyless unquote env' _ (json_dumps d) d);
    [reflexivity | | exact Hd | exact Ha].
  apply json_loads_dumps. exact (json_loads_nodup _ _ Hjson).
Qed.

Lemma tokenless_grant_wedges_witness :
  let first := get_access_token unquote_bytes tokenless_env first_run in
  fst first = Raise (KeyError "access_token") /\
  token_file (snd first) = Some (json_dumps tokenless_grant) /\
  forall env' : Env,
    get_access_token unquote_bytes env' (snd first)
    = (Raise (KeyError "access_token"), snd first).
Proof.
  apply (tokenless_grant_wedges unquote_bytes tokenless_env first_run
           "test-id" "test-secret" "/callback?code=ABC123" "ABC123"
           (cut_url "/callback?code=ABC123") tokenless_grant);
    try reflexivity; try discriminate.
  repeat split.
Defined.



(** * Facts about [server.py] *)

(** ** [_spotify_get] and [_spotify_post] *)

Lemma _spotify_get_token (unquote : string -> string) (env : Env) (api : Api)
  (path : string) (params : option (list (string * pyval))) (s : Session)
  (token : value) (w' : World) :
  get_access_token unquote env (auth_world s) = (Ok token, w') ->
  _spotify_get unquote env api path params s =
  (Done (api_get api (SPOTIFY_API ++ path) params (bearer token)),
   mkSession w' (api_calls s ++ [ApiGet (SPOTIFY_API ++ path) params (bearer token)])).
Proof.
  intros H. unfold _spotify_get, sbind, lift. rewrite H. reflexivity.
Qed.

Lemma _spotify_post_token (unquote : string -> string) (env : Env) (api : Api)
  (path : string) (json_body : pyval) (s : Session) (token : value) (w' : World) :
  get_access_token unquote env (auth_world s) = (Ok token, w') ->
  _spotify_post unquote env api path json_body s =
  (Done (api_post api (SPOTIFY_API ++ path) json_body (bearer token)),
   mkSession w' (api_calls s ++ [ApiPost (SPOTIFY_API ++ path) json_body (bearer token)])).
Proof.
  intros H. unfold _spotify_post, sbind, lift. rewrite H. reflexivity.
Qed.

(** X11. With a token set in the store and a probe answered with any status
    but 401, the effects of [_spotify_get] are the one probe, among the
    events of the auth module, and the one request among those sent to the
    API, both under the cached access token; it returns the reply as it is
    whatever its status: neither an error status nor a 401 on the request
    itself leads to an exception, a retry or a refresh. *)
Theorem spotify_get_with_cached_token (unquote : string -> string) (env : Env)
  (api : Api) (path : string) (params : option (list (string * pyval)))
  (s : Session) (content : string) (T : dict) (a : value) :
  token_file (auth_world s) = Some content ->
  json_loads content = Some T ->
  dict_get "access_token" T = Some a ->
  api_me env (bearer a) <> 401%Z ->
  _spotify_get unquote env api path params s =
  (Done (api_get api (SPOTIFY_API ++ path) params (bearer a)),
   mkSession (add_events [EvGet API_ME_URL (bearer a)] (auth_world s))
     (api_calls s ++ [ApiGet (SPOTIFY_API ++ path) params (bearer a)])).
Proof.
  intros Hfile Hjson Ha Hst.
  apply _spotify_get_token.
  exact (get_access_token_cached unquote env _ content T a Hfile Hjson Ha Hst).
Qed.

Lemma spotify_get_with_cached_token_witness :
  _spotify_get unquote_bytes (test_env None 200) (test_api error_reply error_reply)
    "/me" None (session_of (stored old_tokens)) =
  (Done error_reply,
   mkSession (add_events [EvGet API_ME_URL (bearer (VStr "abc"))] (stored old_tokens))
     ([] ++ [ApiGet (SPOTIFY_API ++ "/me") None (bearer (VStr "abc"))])).
Proof.
  apply (spotify_get_with_cached_token unquote_bytes (test_env None 200)
           (test_api error_reply error_reply) "/me" None
           (session_of (stored old_tokens)) (json_dumps old_tokens) old_tokens
           (VStr "abc"));
    try reflexivity.
  discriminate.
Defined.

(** X12. When the probe is answered 401 and the provider accepts the
    refresh, [_spotify_post] sends its one request under the access token of
    the refreshed token set, not under the stale one; when it returns, the
    auth module has probed once, posted the refresh once and written the
    refreshed set, which is what the credential file holds. *)
Theorem spotify_post_after_refresh (unquote : string -> string) (env : Env)
  (api : Api) (path : string) (json_body : pyval) (s : Session)
  (content : string) (T : dict) (a r : value) (cid csec : string)
  (d : dict) (a' : value) :
  token_file (auth_world s) = Some content ->
  json_loads content = Some T ->
  dict_get "access_token" T = Some a ->
  dict_get "refresh_token" T = Some r ->
  api_me env (bearer a) = 401%Z ->
  configured env cid csec ->
  is_success (status_code (token_endpoint env (refresh_form r) (cid, csec))) = true ->
  json_loads (text (token_endpoint env (refresh_form r) (cid, csec))) = Some d ->
  dict_get "access_token" d = Some a' ->
  _spotify_post unquote env api path json_body s =
  (Done (api_post api (SPOTIFY_API ++ path) json_body (bearer a')),
   mkSession
     (set_token_file (Some (json_dumps (with_refresh_token r d)))
        (add_events [EvGet API_ME_URL (bearer a);
                     EvPost SPOTIFY_TOKEN_URL (refresh_form r) (cid, csec);
                     EvWrite (json_dumps (with_refresh_token r d))]
           (auth_world s)))
     (api_calls s ++ [ApiPost (SPOTIFY_API ++ path) json_body (bearer a')])).
Proof.
  intros Hfile Hjson Ha Hr H401 Hcfg Hok Hreply Ha'.
  apply _spotify_post_token.
  rewrite (get_access_token_probe unquote env _ content T a Hfile Hjson Ha).
  rewrite H401. cbn [Z.eqb Pos.eqb].
  unfold bind, dict_item at 1. rewrite Hr. unfold ret at 1.
  rewrite (refresh_access_token_ok env r _ cid csec d Hcfg Hok Hreply).
  assert (HT' : dict_get "access_token" (with_refresh_token r d) = Some a').
  { unfold with_refresh_token.
    destruct (dict_has "refresh_token" d); [exact Ha'|].
    rewrite dict_get_set_other by discriminate. exact Ha'. }
  unfold dict_item. rewrite HT'.
  unfold ret, set_token_file, add_events.
  cbn [token_file auth_code listening live_threads trace].
  rewrite <- app_assoc. reflexivity.
Qed.

Lemma spotify_post_after_refresh_witness :
  _spotify_post unquote_bytes (test_env None 401) (test_api error_reply playlist_reply)
    "/users/user123/playlists" (playlist_body (PStr "My Playlist"))
    (session_of (stored old_tokens)) =
  (Done playlist_reply,
   mkSession
     (set_token_file
        (Some (json_dumps (with_refresh_token (VStr "xyz") new_tokens_reply)))
        (add_events [EvGet API_ME_URL (bearer (VStr "abc"));
                     EvPost SPOTIFY_TOKEN_URL (refresh_form (VStr "xyz"))
                       ("test-id", "test-secret");
                     EvWrite (json_dumps
                                (with_refresh_token (VStr "xyz") new_tokens_reply))]
           (stored old_tokens)))
     ([] ++ [ApiPost (SPOTIFY_API ++ "/users/user123/playlists")
               (playlist_body (PStr "My Playlist")) (bearer (VStr "def"))])).
Proof.
  apply (spotify_post_after_refresh unquote_bytes (test_env None 401)
           (test_api error_reply playlist_reply) "/users/user123/playlists"
           (playlist_body (PStr "My Playlist")) (session_of (stored old_tokens))
           (json_dumps old_tokens) old_tokens (VStr "abc") (VStr "xyz")
           "test-id" "test-secret" new_tokens_reply (VStr "def"));
    try reflexivity.
  repeat split.
Defined.

(** X13. When [get_access_token] raises, [_spotify_get] and [_spotify_post]
    raise the same exception and send nothing to the API. *)
Theorem no_token_no_request (unquote : string -> string) (env : Env) (api : Api)
  (path : string) (params : option (list (string * pyval))) (json_body : pyval)
  (s : Session) (e : exn) :
  fst (get_access_token unquote env (auth_world s)) = Raise e ->
  fst (_spotify_get unquote env api path params s) = Failed (Exn e) /\
  api_calls (snd (_spotify_get unquote env api path params s)) = api_calls s /\
  fst (_spotify_post unquote env api path json_body s) = Failed (Exn e) /\
  api_calls (snd (_spotify_post unquote env api path json_body s)) = api_calls s.
Proof.
  intros H. unfold _spotify_get, _spotify_post, sbind, lift.
  destruct (get_access_token unquote env (auth_world s)) as [res w'].
  simpl in H. subst res. repeat split.
Qed.

Lemma no_token_no_request_witness :
  fst (_spotify_get unquote_bytes unconfigured_env (test_api error_reply error_reply)
         "/me" None (session_of first_run))
  = Failed (Exn (RuntimeError MISSING_CREDENTIALS)) /\
  api_calls (snd (_spotify_get unquote_bytes unconfigured_env
                    (test_api error_reply error_reply) "/me" None
                    (session_of first_run)))
  = api_calls (session_of first_run) /\
  fst (_spotify_post unquote_bytes unconfigured_env (test_api error_reply error_reply)
         "/me" PNone (session_of first_run))
  = Failed (Exn (RuntimeError MISSING_CREDENTIALS)) /\
  api_calls (snd (_spotify_post unquote_bytes unconfigured_env
                    (test_api error_reply error_reply) "/me" PNone
                    (session_of first_run)))
  = api_calls (session_of first_run).
Proof.
  apply (no_token_no_request unquote_bytes unconfigured_env
           (test_api error_reply error_reply) "/me" None PNone
           (session_of first_run) (RuntimeError MISSING_CREDENTIALS)).
  reflexivity.
Defined.

(** ** [handle_call_tool] *)

(** X14. Every name is either the name of a tool that [handle_list_tools]
    lists, or [handle_call_tool] refuses it with [ValueError("Unknown tool:
    ...")] whatever the arguments, without reading credentials or sending
    anything. *)
Theorem unlisted_tool_is_refused (unquote : string -> string)
  (repr : pyval -> string) (env : Env) (api : Api) (name : string)
  (arguments : option (list (string * pyval))) (s : Session) :
  In name (map tool_name handle_list_tools) \/
  handle_call_tool unquote repr env api name arguments s =
  (Failed (ValueError ("Unknown tool: " ++ name)), s).
Proof.
  unfold handle_call_tool, sbind.
  destruct (String.eqb_spec name "get_current_song") as [->|H1];
    [left; simpl; auto|].
  destruct (String.eqb_spec name "search_track") as [->|H2];
    [left; simpl; auto|].
  destruct (String.eqb_spec name "create_playlist") as [->|H3];
    [left; simpl; auto|].
  right. reflexivity.
Qed.

(** X15. What a listed tool requires, [handle_call_tool] enforces before
    anything else: when the arguments are absent, empty or lack a required
    name, it raises [ValueError("Missing required argument: ...")] and the
    session is untouched, so no credential is read and nothing is sent. *)
Theorem required_arguments_enforced (unquote : string -> string)
  (repr : pyval -> string) (env : Env) (api : Api) (tool : Tool)
  (required : string) (arguments : option (list (string * pyval))) (s : Session) :
  In tool handle_list_tools ->
  In required (tool_required tool) ->
  lacks required arguments = true ->
  handle_call_tool unquote repr env api (tool_name tool) arguments s =
  (Failed (ValueError ("Missing required argument: " ++ required)), s).
Proof.
  intros Htool Hreq Hlacks.
  simpl in Htool.
  destruct Htool as [<- | [<- | [<- | []]]]; simpl in Hreq;
    [contradiction | |];
    destruct Hreq as [<- | []];
    unfold handle_call_tool, sbind; simpl String.eqb; cbv iota;
    rewrite Hlacks; reflexivity.
Qed.

Lemma required_arguments_enforced_witness :
  handle_call_tool unquote_bytes test_repr (test_env None 200)
    (test_api error_reply error_reply)
    (tool_name (mkTool "search_track" "Search for tracks on Spotify"
                  [("query", ("string",
                              "Search query, e.g. 'Bohemian Rhapsody' or 'artist:Queen'"))]
                  ["query"]))
    (Some []) (session_of first_run) =
  (Failed (ValueError ("Missing required argument: " ++ "query")),
   session_of first_run).
Proof.
  apply (required_arguments_enforced unquote_bytes test_repr (test_env None 200)
           (test_api error_reply error_reply)).
  - right. left. reflexivity.
  - left. reflexivity.
  - reflexivity.
Defined.

(** ** [get_current_song] *)

(** X16. A reply that is not a 200 with content never makes
    [get_current_song] raise, and is never decoded.  With status 204, or
    with no content whatever the status (an error status too), the answer is
    that nothing is playing; any other status than 200 gives the error text
    with the status and the body. *)
Theorem get_current_song_without_playback (unquote : string -> string)
  (repr : pyval -> string) (env : Env) (api : Api) (s s' : Session)
  (response : ApiResponse) :
  _spotify_get unquote env api "/me/player/currently-playing" None s
  = (Done response, s') ->
  api_status response <> 200%Z \/ api_content response = EmptyString ->
  get_current_song unquote repr env api s =
  (Done (if (Z.eqb (api_status response) 204
             || str_empty (api_content response))%bool
         then NOTHING_PLAYING
         else api_error response), s').
Proof.
  intros Hget Hcase. unfold get_current_song, sbind. rewrite Hget.
  destruct (Z.eqb (api_status response) 204
            || str_empty (api_content response))%bool eqn:Hfirst;
    [reflexivity|].
  apply orb_false_elim in Hfirst as [_ Hcontent].
  destruct Hcase as [Hstatus | Hempty].
  - apply Z.eqb_neq in Hstatus. rewrite Hstatus. reflexivity.
  - rewrite Hempty in Hcontent. discriminate.
Qed.

Lemma get_current_song_without_playback_witness :
  get_current_song unquote_bytes test_repr (test_env None 200)
    (test_api error_reply error_reply) (session_of (stored old_tokens)) =
  (Done (if (Z.eqb (api_status error_reply) 204
             || str_empty (api_content error_reply))%bool
         then NOTHING_PLAYING
         else api_error error_reply),
   mkSession (add_events [EvGet API_ME_URL (bearer (VStr "abc"))] (stored old_tokens))
     [ApiGet (SPOTIFY_API ++ "/me/player/currently-playing") None
        (bearer (VStr "abc"))]).
Proof.
  apply (get_current_song_without_playback unquote_bytes test_repr
           (test_env None 200) (test_api error_reply error_reply)
           (session_of (stored old_tokens))).
  - reflexivity.
  - left. discriminate.
Defined.

Lemma fmt_02d_below_60 (n : Z) :
  (0 <= n < 60)%Z -> fmt_02d n = two_digits n.
Proof.
  intros Hn.
  assert (Hall : forallb (fun k => String.eqb (fmt_02d (Z.of_nat k))
                                     (two_digits (Z.of_nat k)))
                   (seq 0 60) = true) by (vm_compute; reflexivity).
  rewrite forallb_forall in Hall.
  specialize (Hall (Z.to_nat n)).
  rewrite Z2Nat.id in Hall by lia.
  apply String.eqb_eq, Hall, in_seq. lia.
Qed.

(** X17. The clock of the progress line, [f"{s // 60}:{s % 60:02d}"]: for
    every number of seconds, negative ones too, it is the minutes, a colon
    and exactly two digits, which are the tens and the units of the seconds
    left, a number from 0 to 59. *)
Theorem clock_has_two_digit_seconds (s : Z) :
  let minutes := Z.div s 60 in
  let seconds := Z.modulo s 60 in
  fmt_clock s = (decimal minutes ++ ":" ++ two_digits seconds)%string /\
  (0 <= seconds < 60)%Z /\
  s = (60 * minutes + seconds)%Z.
Proof.
  cbv zeta.
  pose proof (Z.mod_pos_bound s 60 ltac:(lia)) as Hbound.
  split; [|split; [exact Hbound | apply Z.div_mod; lia]].
  unfold fmt_clock. now rewrite fmt_02d_below_60.
Qed.

Lemma map_outcome_artists (artist_values : list pyval) (artists : list string) :
  Forall2 artist_named artist_values artists ->
  map_outcome (fun a => py_getitem a "name") artist_values
  = Done (map PStr artists).
Proof.
  induction 1 as [|a n values names (members & -> & Hname) _ IH]; simpl.
  - reflexivity.
  - rewrite Hname. simpl. rewrite IH. reflexivity.
Qed.

Lemma map_outcome_as_str (l : list string) :
  map_outcome as_str (map PStr l) = Done l.
Proof.
  induction l as [|a l IH]; simpl; [reflexivity|]. now rewrite IH.
Qed.

Lemma artist_names_joined (artist_values : list pyval) (artists : list string) :
  Forall2 artist_named artist_values artists ->
  artist_names (PList artist_values) = Done (join ", " artists).
Proof.
  intros H. unfold artist_names. simpl.
  rewrite (map_outcome_artists _ _ H). simpl.
  rewrite map_outcome_as_str. reflexivity.
Qed.

(** X18. For a 200 reply with content whose JSON has the members the tool
    reads (the track's name, its artists with their names, its album's name,
    its duration, and the progress), [get_current_song] answers with the
    track, all the artists in the reply's order separated by a comma and a
    space, the album, and the two clocks of the progress and the duration,
    each from the milliseconds divided by 1000. *)
Theorem get_current_song_now_playing (unquote : string -> string)
  (repr : pyval -> string) (env : Env) (api : Api) (s s' : Session)
  (response : ApiResponse) (data : pyval) (track_name : string)
  (artists : list string) (album : string) (progress_ms duration_ms : Z) :
  _spotify_get unquote env api "/me/player/currently-playing" None s
  = (Done response, s') ->
  api_status response = 200%Z ->
  api_content response <> EmptyString ->
  api_json response = Some data ->
  playing data track_name artists album progress_ms duration_ms ->
  get_current_song unquote repr env api s =
  (Done ("Now Playing:" ++ newline
         ++ "  Track: " ++ track_name ++ newline
         ++ "  Artist: " ++ join ", " artists ++ newline
         ++ "  Album: " ++ album ++ newline
         ++ "  Progress: " ++ fmt_clock (Z.div progress_ms 1000)
         ++ " / " ++ fmt_clock (Z.div duration_ms 1000))%string, s').
Proof.
  intros Hget Hstatus Hcontent Hjson
    (members & track & artist_values & album_members & -> & Hitem & Htrack
     & Hprogress & Hname & Hartists & Hnames & Halbum & Halbum_name & Hduration).
  unfold get_current_song, sbind. rewrite Hget, Hstatus.
  destruct (api_content response) as [|c r] eqn:Hc; [contradiction|].
  cbn [Z.eqb Pos.eqb orb str_empty negb].
  unfold pure, api_response_json. rewrite Hjson.
  unfold obind at 1, now_playing.
  unfold py_get at 1. rewrite Hitem. unfold obind at 1.
  destruct track as [|kv track']; [contradiction|].
  cbn [py_truthy negb].
  unfold py_getitem at 1. rewrite Hitem. unfold obind at 1.
  unfold py_getitem at 1. rewrite Hartists. unfold obind at 1.
  rewrite (artist_names_joined _ _ Hnames). unfold obind at 1.
  unfold py_get at 1. rewrite Hprogress. unfold obind at 1.
  unfold py_floordiv at 1, obind at 1.
  unfold py_getitem at 1. rewrite Hduration. unfold obind at 1.
  unfold py_floordiv at 1, obind at 1.
  unfold py_fmt_clock at 1, obind at 1.
  unfold py_fmt_clock at 1, obind at 1.
  unfold py_getitem at 1. rewrite Hname. unfold obind at 1.
  unfold py_getitem at 1. rewrite Halbum. unfold obind at 1.
  unfold py_getitem at 1. rewrite Halbum_name. unfold obind at 1.
  reflexivity.
Qed.

Lemma playing_sample_is_playing :
  playing playing_sample "Bohemian Rhapsody" ["Queen"] "A Night at the Opera"
          120000 354000.
Proof.
  unfold playing, playing_sample. do 4 eexists.
  split; [reflexivity|]. repeat split; try reflexivity; try discriminate.
  repeat constructor. eexists. split; reflexivity.
Qed.

Lemma get_current_song_now_playing_witness :
  get_current_song unquote_bytes test_repr (test_env None 200)
    (test_api playing_reply error_reply) (session_of (stored old_tokens)) =
  (Done ("Now Playing:" ++ newline
         ++ "  Track: " ++ "Bohemian Rhapsody" ++ newline
         ++ "  Artist: " ++ join ", " ["Queen"] ++ newline
         ++ "  Album: " ++ "A Night at the Opera" ++ newline
         ++ "  Progress: " ++ fmt_clock (Z.div 120000 1000)
         ++ " / " ++ fmt_clock (Z.div 354000 1000))%string,
   mkSession (add_events [EvGet API_ME_URL (bearer (VStr "abc"))] (stored old_tokens))
     [ApiGet (SPOTIFY_API ++ "/me/player/currently-playing") None
        (bearer (VStr "abc"))]).
Proof.
  apply (get_current_song_now_playing unquote_bytes test_repr (test_env None 200)
           (test_api playing_reply error_reply) (session_of (stored old_tokens))
           _ playing_reply playing_sample).
  - reflexivity.
  - reflexivity.
  - discriminate.
  - reflexivity.
  - exact playing_sample_is_playing.
Defined.

(** The test of the module: 120000 ms of progress read [2:00]. *)
Example current_song_clock : fmt_clock (Z.div 120000 1000) = "2:00".
Proof. reflexivity. Qed.

(** ** [search_track] *)

(** X19. For a 200 reply whose JSON object has no [tracks], or whose
    [tracks] object has no [items], or whose [items] are empty,
    [search_track] answers that no results were found for the query. *)
Theorem search_track_no_results (unquote : string -> string)
  (repr : pyval -> string) (env : Env) (api : Api) (query : pyval)
  (s s' : Session) (response : ApiResponse) (members : list (string * pyval)) :
  _spotify_get unquote env api "/search" (Some (search_params query)) s
  = (Done response, s') ->
  api_status response = 200%Z ->
  api_json response = Some (PDict members) ->
  dict_get "tracks" members = None \/
  (exists tracks_object,
      dict_get "tracks" members = Some (PDict tracks_object) /\
      (dict_get "items" tracks_object = None \/
       exists items, dict_get "items" tracks_object = Some items /\
                     py_truthy items = false)) ->
  search_track unquote repr env api query s =
  (Done ("No results found for: " ++ py_format repr query)%string, s').
Proof.
  intros Hget Hstatus Hjson Hcase.
  unfold search_track, sbind. rewrite Hget, Hstatus.
  cbn [Z.eqb Pos.eqb negb].
  unfold pure, api_response_json. rewrite Hjson.
  unfold obind at 1, search_results, py_get at 1.
  destruct Hcase as [Hnone | (tracks_object & Htracks & Hitems)].
  - rewrite Hnone. reflexivity.
  - rewrite Htracks. unfold obind at 1, py_get.
    destruct Hitems as [Hnone | (items & Hitems & Hfalsy)].
    + rewrite Hnone. reflexivity.
    + rewrite Hitems. unfold obind at 1. rewrite Hfalsy. reflexivity.
Qed.

Lemma search_track_no_results_witness :
  search_track unquote_bytes test_repr (test_env None 200)
    (test_api (mkApiResponse 200 "data" "data" (Some no_tracks_sample)) error_reply)
    (PStr "xyznonexistent") (session_of (stored old_tokens)) =
  (Done ("No results found for: " ++ py_format test_repr (PStr "xyznonexistent"))%string,
   mkSession (add_events [EvGet API_ME_URL (bearer (VStr "abc"))] (stored old_tokens))
     [ApiGet (SPOTIFY_API ++ "/search")
        (Some (search_params (PStr "xyznonexistent"))) (bearer (VStr "abc"))]).
Proof.
  apply (search_track_no_results unquote_bytes test_repr (test_env None 200)
           (test_api (mkApiResponse 200 "data" "data" (Some no_tracks_sample))
              error_reply)
           (PStr "xyznonexistent") (session_of (stored old_tokens)) _
           (mkApiResponse 200 "data" "data" (Some no_tracks_sample))
           [("tracks", PDict [("items", PList [])])]).
  - reflexivity.
  - reflexivity.
  - reflexivity.
  - right. eexists. split; [reflexivity|].
    right. eexists. split; reflexivity.
Defined.

Lemma search_entry_listed (repr : pyval -> string) (i : nat) (track : pyval)
  (info : TrackInfo) :
  listed_track track info ->
  search_entry repr i track = Done (entry_text i info).
Proof.
  intros (members & artist_values & album_members & -> & Hname & Hartists
          & Hnames & Halbum & Halbum_name & Huri).
  unfold search_entry, py_getitem.
  rewrite Hartists. cbn [obind].
  rewrite (artist_names_joined _ _ Hnames). cbn [obind].
  rewrite Hname. cbn [obind].
  rewrite Halbum. cbn [obind].
  rewrite Halbum_name. cbn [obind].
  rewrite Huri. cbn [obind].
  reflexivity.
Qed.

Lemma search_entries_listed (repr : pyval -> string) (tracks : list pyval)
  (infos : list TrackInfo) :
  Forall2 listed_track tracks infos ->
  forall i : nat, search_entries repr i tracks = Done (entries_from i infos).
Proof.
  induction 1 as [|track info tracks infos Hfirst _ IH]; intros i; simpl.
  - reflexivity.
  - rewrite (search_entry_listed repr i track info Hfirst). cbn [obind].
    rewrite IH. reflexivity.
Qed.

Lemma entries_from_nth (infos : list TrackInfo) :
  forall (i k : nat) (info : TrackInfo),
    nth_error infos k = Some info ->
    nth_error (entries_from i infos) k = Some (entry_text (i + k) info).
Proof.
  induction infos as [|first infos IH]; intros i [|k] info; simpl;
    try discriminate.
  - intros [= <-]. now rewrite Nat.add_0_r.
  - intros Hk. rewrite (IH (S i) k info Hk). now rewrite Nat.add_succ_r.
Qed.

(** X20. When [search_track] answers a 200 reply that lists tracks with the
    members the tool reads (the name, the artists with their names, the
    album's name and the URI), its text is the heading and, each after a
    line break, one entry for each track of the reply in the reply's order,
    however many there are: the entry of the track at place [k], counting
    from 0, bears the number [k + 1] and shows the name, the artists
    separated by a comma and a space, the album and the URI of that
    track. *)
Theorem search_track_numbers_entries (unquote : string -> string)
  (repr : pyval -> string) (env : Env) (api : Api) (query : pyval)
  (s s' : Session) (response : ApiResponse)
  (members tracks_object : list (string * pyval)) (tracks : list pyval)
  (infos : list TrackInfo) :
  _spotify_get unquote env api "/search" (Some (search_params query)) s
  = (Done response, s') ->
  api_status response = 200%Z ->
  api_json response = Some (PDict members) ->
  dict_get "tracks" members = Some (PDict tracks_object) ->
  dict_get "items" tracks_object = Some (PList tracks) ->
  tracks <> [] ->
  Forall2 listed_track tracks infos ->
  search_track unquote repr env api query s =
    (Done (join newline
             (("Search results for '" ++ py_format repr query ++ "':"
               ++ newline)%string :: entries_from 1 infos)), s') /\
  length (entries_from 1 infos) = length tracks /\
  forall (k : nat) (info : TrackInfo),
    nth_error infos k = Some info ->
    nth_error (entries_from 1 infos) k = Some (entry_text (S k) info).
Proof.
  intros Hget Hstatus Hjson Htracks Hitems Hne Hlisted.
  split; [|split].
  - unfold search_track, sbind. rewrite Hget, Hstatus.
    cbn [Z.eqb Pos.eqb negb].
    unfold pure, api_response_json. rewrite Hjson.
    unfold obind at 1, search_results, py_get at 1. rewrite Htracks.
    unfold obind at 1, py_get. rewrite Hitems. unfold obind at 1.
    destruct tracks as [|track tracks']; [contradiction|].
    cbn [py_truthy negb py_iter]. unfold obind at 1.
    rewrite (search_entries_listed repr _ infos Hlisted 1). reflexivity.
  - apply Forall2_length in Hlisted. rewrite Hlisted.
    clear. generalize 1. induction infos as [|info infos IH]; intros i; simpl;
      [reflexivity | now rewrite IH].
  - intros k info Hk. exact (entries_from_nth infos 1 k info Hk).
Qed.

Lemma search_sample_is_listed :
  Forall2 listed_track search_sample_tracks search_sample_infos.
Proof.
  unfold search_sample_tracks, search_sample_infos.
  repeat constructor.
  - do 3 eexists. split; [reflexivity|].
    repeat split; try reflexivity.
    repeat constructor. eexists. split; reflexivity.
  - do 3 eexists. split; [reflexivity|].
    repeat split; try reflexivity.
    repeat constructor; eexists; split; reflexivity.
Qed.

Lemma search_track_numbers_entries_witness :
  let api := test_api (mkApiResponse 200 "data" "data" (Some search_sample))
               error_reply in
  search_track unquote_bytes test_repr (test_env None 200) api
    (PStr "Queen") (session_of (stored old_tokens)) =
    (Done (join newline
             (("Search results for '" ++ py_format test_repr (PStr "Queen")
               ++ "':" ++ newline)%string :: entries_from 1 search_sample_infos)),
     mkSession
       (add_events [EvGet API_ME_URL (bearer (VStr "abc"))] (stored old_tokens))
       [ApiGet (SPOTIFY_API ++ "/search") (Some (search_params (PStr "Queen")))
          (bearer (VStr "abc"))]) /\
  length (entries_from 1 search_sample_infos) = length search_sample_tracks /\
  forall (k : nat) (info : TrackInfo),
    nth_error search_sample_infos k = Some info ->
    nth_error (entries_from 1 search_sample_infos) k
    = Some (entry_text (S k) info).
Proof.
  cbv zeta.
  apply (search_track_numbers_entries unquote_bytes test_repr (test_env None 200)
           (test_api (mkApiResponse 200 "data" "data" (Some search_sample))
              error_reply)
           (PStr "Queen") (session_of (stored old_tokens)) _
           (mkApiResponse 200 "data" "data" (Some search_sample))
           [("tracks", PDict [("items", PList search_sample_tracks)])]
           [("items", PList search_sample_tracks)]
           search_sample_tracks search_sample_infos).
  - reflexivity.
  - reflexivity.
  - reflexivity.
  - reflexivity.
  - reflexivity.
  - discriminate.
  - exact search_sample_is_listed.
Defined.

(** The text of the witness, as the user reads it. *)
Example search_sample_text :
  join newline
    (("Search results for '" ++ "Queen" ++ "':" ++ newline)%string
     :: entries_from 1 search_sample_infos)
  = ("Search results for 'Queen':" ++ newline ++ newline
     ++ "  1. Bohemian Rhapsody " ++ EM_DASH ++ " Queen" ++ newline
     ++ "     Album: A Night at the Opera" ++ newline
     ++ "     URI: spotify:track:abc123" ++ newline
     ++ "  2. Under Pressure " ++ EM_DASH ++ " Queen, David Bowie" ++ newline
     ++ "     Album: Hot Space" ++ newline
     ++ "     URI: spotify:track:def456")%string.
Proof. reflexivity. Qed.

(** ** [create_playlist] *)

(** X21. With a valid cached token: when the profile request is answered
    with another status than 200, [create_playlist] returns the failure text
    with that status and body, raises nothing, and sends no POST: the
    profile request is the only request to the API. *)
Theorem create_playlist_needs_profile (unquote : string -> string)
  (repr : pyval -> string) (env : Env) (api : Api) (name : pyval) (s : Session)
  (content : string) (T : dict) (a : value) :
  token_file (auth_world s) = Some content ->
  json_loads content = Some T ->
  dict_get "access_token" T = Some a ->
  api_me env (bearer a) <> 401%Z ->
  api_status (api_get api (SPOTIFY_API ++ "/me") None (bearer a)) <> 200%Z ->
  create_playlist unquote repr env api name s =
  (Done (profile_error (api_get api (SPOTIFY_API ++ "/me") None (bearer a))),
   mkSession (add_events [EvGet API_ME_URL (bearer a)] (auth_world s))
     (api_calls s ++ [ApiGet (SPOTIFY_API ++ "/me") None (bearer a)])).
Proof.
  intros Hfile Hjson Ha Hst Hprofile.
  unfold create_playlist, sbind at 1.
  rewrite (_spotify_get_token unquote env api "/me" None s a _
             (get_access_token_cached unquote env _ content T a Hfile Hjson Ha Hst)).
  apply Z.eqb_neq in Hprofile. rewrite Hprofile. reflexivity.
Qed.

Lemma create_playlist_needs_profile_witness :
  create_playlist unquote_bytes test_repr (test_env None 200)
    (test_api error_reply playlist_reply) (PStr "My Playlist")
    (session_of (stored old_tokens)) =
  (Done (profile_error error_reply),
   mkSession (add_events [EvGet API_ME_URL (bearer (VStr "abc"))] (stored old_tokens))
     ([] ++ [ApiGet (SPOTIFY_API ++ "/me") None (bearer (VStr "abc"))])).
Proof.
  apply (create_playlist_needs_profile unquote_bytes test_repr (test_env None 200)
           (test_api error_reply playlist_reply) (PStr "My Playlist")
           (session_of (stored old_tokens)) (json_dumps old_tokens) old_tokens
           (VStr "abc"));
    try reflexivity; discriminate.
Defined.

(** The two requests of [create_playlist] once the profile has been read. *)
Lemma create_playlist_posts (unquote : string -> string)
  (repr : pyval -> string) (env : Env) (api : Api) (name : pyval) (s : Session)
  (content : string) (T : dict) (a : value) (profile user_id : pyval) :
  token_file (auth_world s) = Some content ->
  json_loads content = Some T ->
  dict_get "access_token" T = Some a ->
  api_me env (bearer a) <> 401%Z ->
  api_status (api_get api (SPOTIFY_API ++ "/me") None (bearer a)) = 200%Z ->
  api_json (api_get api (SPOTIFY_API ++ "/me") None (bearer a)) = Some profile ->
  py_getitem profile "id" = Done user_id ->
  let response := api_post api (SPOTIFY_API ++ playlist_path repr user_id)
                    (playlist_body name) (bearer a) in
  create_playlist unquote repr env api name s =
  (if negb (Z.eqb (api_status response) 200 || Z.eqb (api_status response) 201)%bool
   then sret (playlist_error response)
   else pure (obind (api_response_json response) (playlist_created repr)))
    (mkSession
       (add_events [EvGet API_ME_URL (bearer a); EvGet API_ME_URL (bearer a)]
          (auth_world s))
       (api_calls s
        ++ [ApiGet (SPOTIFY_API ++ "/me") None (bearer a);
            ApiPost (SPOTIFY_API ++ playlist_path repr user_id)
              (playlist_body name) (bearer a)])).
Proof.
  intros Hfile Hjson Ha Hst Hstatus Hprofile Hid. cbv zeta.
  unfold create_playlist, sbind at 1.
  rewrite (_spotify_get_token unquote env api "/me" None s a _
             (get_access_token_cached unquote env _ content T a Hfile Hjson Ha Hst)).
  rewrite Hstatus. cbn [Z.eqb Pos.eqb negb].
  unfold sbind at 1, pure at 1, api_response_json at 1. rewrite Hprofile.
  cbn [obind]. rewrite Hid.
  unfold sbind at 1.
  rewrite (_spotify_post_token unquote env api (playlist_path repr user_id)
             (playlist_body name) _ a
             (add_events [EvGet API_ME_URL (bearer a)]
                (add_events [EvGet API_ME_URL (bearer a)] (auth_world s))));
    [| exact (get_access_token_cached unquote env _ content T a
                (Hfile : token_file (add_events [EvGet API_ME_URL (bearer a)]
                                       (auth_world s)) = Some content)
                Hjson Ha Hst) ].
  cbn [auth_world api_calls].
  unfold add_events. cbn [token_file auth_code listening live_threads trace].
  rewrite <- !app_assoc. reflexivity.
Qed.

(** X22. With a valid cached token, a profile that gives the user's id and
    a creation answered 200 or 201 with the playlist's name and URL:
    [create_playlist] probes the token twice, once for each of its two
    requests; it sends the GET of the profile and after it one POST to the
    playlists of that user with the given name and [public] false, and
    returns the confirmation with the name and the URL of the reply. *)
Theorem create_playlist_creates (unquote : string -> string)
  (repr : pyval -> string) (env : Env) (api : Api) (name : pyval) (s : Session)
  (content : string) (T : dict) (a : value) (profile user_id : pyval)
  (created external_urls : list (string * pyval)) (playlist_name url : pyval) :
  token_file (auth_world s) = Some content ->
  json_loads content = Some T ->
  dict_get "access_token" T = Some a ->
  api_me env (bearer a) <> 401%Z ->
  api_status (api_get api (SPOTIFY_API ++ "/me") None (bearer a)) = 200%Z ->
  api_json (api_get api (SPOTIFY_API ++ "/me") None (bearer a)) = Some profile ->
  py_getitem profile "id" = Done user_id ->
  let response := api_post api (SPOTIFY_API ++ playlist_path repr user_id)
                    (PDict [("name", name); ("public", PBool false)])
                    (bearer a) in
  api_status response = 200%Z \/ api_status response = 201%Z ->
  api_json response = Some (PDict created) ->
  dict_get "name" created = Some playlist_name ->
  dict_get "external_urls" created = Some (PDict external_urls) ->
  dict_get "spotify" external_urls = Some url ->
  create_playlist unquote repr env api name s =
  (Done ("Playlist created!" ++ newline
         ++ "  Name: " ++ py_format repr playlist_name ++ newline
         ++ "  URL: " ++ py_format repr url)%string,
   mkSession
     (add_events [EvGet API_ME_URL (bearer a); EvGet API_ME_URL (bearer a)]
        (auth_world s))
     (api_calls s
      ++ [ApiGet (SPOTIFY_API ++ "/me") None (bearer a);
          ApiPost (SPOTIFY_API ++ playlist_path repr user_id)
            (PDict [("name", name); ("public", PBool false)]) (bearer a)])).
Proof.
  intros Hfile Hjson Ha Hst Hstatus Hprofile Hid response Hcreated Hdata
    Hname Hurls Hurl.
  rewrite (create_playlist_posts unquote repr env api name s content T a
             profile user_id Hfile Hjson Ha Hst Hstatus Hprofile Hid).
  fold (playlist_body name) in response. fold response.
  assert (Hok : negb (Z.eqb (api_status response) 200
                      || Z.eqb (api_status response) 201)%bool = false).
  { destruct Hcreated as [-> | ->]; reflexivity. }
  rewrite Hok. unfold pure, api_response_json. rewrite Hdata.
  cbn [obind]. unfold playlist_created, py_getitem.
  rewrite Hname. cbn [obind]. rewrite Hurls. cbn [obind]. rewrite Hurl.
  reflexivity.
Qed.

Lemma create_playlist_creates_witness :
  create_playlist unquote_bytes test_repr (test_env None 200)
    (test_api profile_reply playlist_reply) (PStr "My Playlist")
    (session_of (stored old_tokens)) =
  (Done ("Playlist created!" ++ newline
         ++ "  Name: " ++ py_format test_repr (PStr "My Playlist") ++ newline
         ++ "  URL: "
         ++ py_format test_repr (PStr "https://open.spotify.com/playlist/abc"))%string,
   mkSession
     (add_events [EvGet API_ME_URL (bearer (VStr "abc"));
                  EvGet API_ME_URL (bearer (VStr "abc"))]
        (stored old_tokens))
     ([] ++ [ApiGet (SPOTIFY_API ++ "/me") None (bearer (VStr "abc"));
             ApiPost (SPOTIFY_API ++ playlist_path test_repr (PStr "user123"))
               (PDict [("name", PStr "My Playlist"); ("public", PBool false)])
               (bearer (VStr "abc"))])).
Proof.
  apply (create_playlist_creates unquote_bytes test_repr (test_env None 200)
           (test_api profile_reply playlist_reply) (PStr "My Playlist")
           (session_of (stored old_tokens)) (json_dumps old_tokens) old_tokens
           (VStr "abc") (PDict [("id", PStr "user123")]) (PStr "user123")
           [("name", PStr "My Playlist");
            ("external_urls",
             PDict [("spotify", PStr "https://open.spotify.com/playlist/abc")])]
           [("spotify", PStr "https://open.spotify.com/playlist/abc")]
           (PStr "My Playlist") (PStr "https://open.spotify.com/playlist/abc"));
    try reflexivity.
  - discriminate.
  - right. reflexivity.
Defined.

(** X23. With a valid cached token and a profile that gives the user's id:
    when the creation is answered with another status than 200 or 201,
    [create_playlist] returns the failure text with that status and body; it
    raises nothing, does not decode the reply and has sent its POST once. *)
Theorem create_playlist_refused (unquote : string -> string)
  (repr : pyval -> string) (env : Env) (api : Api) (name : pyval) (s : Session)
  (content : string) (T : dict) (a : value) (profile user_id : pyval) :
  token_file (auth_world s) = Some content ->
  json_loads content = Some T ->
  dict_get "access_token" T = Some a ->
  api_me env (bearer a) <> 401%Z ->
  api_status (api_get api (SPOTIFY_API ++ "/me") None (bearer a)) = 200%Z ->
  api_json (api_get api (SPOTIFY_API ++ "/me") None (bearer a)) = Some profile ->
  py_getitem profile "id" = Done user_id ->
  let response := api_post api (SPOTIFY_API ++ playlist_path repr user_id)
                    (PDict [("name", name); ("public", PBool false)])
                    (bearer a) in
  api_status response <> 200%Z ->
  api_status response <> 201%Z ->
  fst (create_playlist unquote repr env api name s)
  = Done (playlist_error response) /\
  api_calls (snd (create_playlist unquote repr env api name s))
  = api_calls s
    ++ [ApiGet (SPOTIFY_API ++ "/me") None (bearer a);
        ApiPost (SPOTIFY_API ++ playlist_path repr user_id)
          (PDict [("name", name); ("public", PBool false)]) (bearer a)].
Proof.
  intros Hfile Hjson Ha Hst Hstatus Hprofile Hid response H200 H201.
  rewrite (create_playlist_posts unquote repr env api name s content T a
             profile user_id Hfile Hjson Ha Hst Hstatus Hprofile Hid).
  fold (playlist_body name) in response. fold response.
  apply Z.eqb_neq in H200, H201. rewrite H200, H201.
  split; reflexivity.
Qed.

Lemma create_playlist_refused_witness :
  fst (create_playlist unquote_bytes test_repr (test_env None 200)
         (test_api profile_reply error_reply) (PStr "My Playlist")
         (session_of (stored old_tokens)))
  = Done (playlist_error error_reply) /\
  api_calls (snd (create_playlist unquote_bytes test_repr (test_env None 200)
                    (test_api profile_reply error_reply) (PStr "My Playlist")
                    (session_of (stored old_tokens))))
  = api_calls (session_of (stored old_tokens))
    ++ [ApiGet (SPOTIFY_API ++ "/me") None (bearer (VStr "abc"));
        ApiPost (SPOTIFY_API ++ playlist_path test_repr (PStr "user123"))
          (PDict [("name", PStr "My Playlist"); ("public", PBool false)])
          (bearer (VStr "abc"))].
Proof.
  apply (create_playlist_refused unquote_bytes test_repr (test_env None 200)
           (test_api profile_reply error_reply) (PStr "My Playlist")
           (session_of (stored old_tokens)) (json_dumps old_tokens) old_tokens
           (VStr "abc") (PDict [("id", PStr "user123")]) (PStr "user123"));
    try reflexivity; discriminate.
Defined.

(** ** A [ValueError] after the request *)

Lemma _spotify_get_done (unquote : string -> string) (env : Env) (api : Api)
  (path : string) (params : option (list (string * pyval))) (s s' : Session)
  (response : ApiResponse) :
  _spotify_get unquote env api path params s = (Done response, s') ->
  exists token : value,
    api_calls s' =
    api_calls s ++ [ApiGet (SPOTIFY_API ++ path) params (bearer token)].
Proof.
  unfold _spotify_get, sbind, lift.
  destruct (get_access_token unquote env (auth_world s)) as [[token|e] w'];
    [|discriminate].
  cbn. intros [= _ <-]. exists token. reflexivity.
Qed.

(** X24. Not every [ValueError] of [handle_call_tool] comes before the
    requests.  When the reply to [get_current_song] is a 200 with content
    whose track has artists with their names, and whose [progress_ms] and
    [duration_ms] are numbers of which one is a float (a JSON number written
    with a fraction or an exponent), the format [02d] of the clock raises
    [ValueError]: the call fails with it, and the GET request has been
    sent. *)
Theorem float_clock_raises (unquote : string -> string)
  (repr : pyval -> string) (env : Env) (api : Api)
  (arguments : option (list (string * pyval))) (s s' : Session)
  (response : ApiResponse) (members track : list (string * pyval))
  (artists_value progress duration : pyval) (artists : string) :
  _spotify_get unquote env api "/me/player/currently-playing" None s
  = (Done response, s') ->
  api_status response = 200%Z ->
  api_content response <> EmptyString ->
  api_json response = Some (PDict members) ->
  dict_get "item" members = Some (PDict track) ->
  track <> [] ->
  dict_get "artists" track = Some artists_value ->
  artist_names artists_value = Done artists ->
  py_get (PDict members) "progress_ms" (PInt 0) = Done progress ->
  dict_get "duration_ms" track = Some duration ->
  is_number progress = true ->
  is_number duration = true ->
  (is_float progress || is_float duration)%bool = true ->
  handle_call_tool unquote repr env api "get_current_song" arguments s =
    (Failed (ValueError FLOAT_FORMAT_ERROR), s') /\
  exists token : value,
    api_calls s' =
    api_calls s
    ++ [ApiGet (SPOTIFY_API ++ "/me/player/currently-playing") None
          (bearer token)].
Proof.
  intros Hget Hstatus Hcontent Hjson Hitem Htrack Hartists Hnames Hprogress
    Hduration Hnum1 Hnum2 Hfloat.
  split; [|exact (_spotify_get_done unquote env api _ None s s' response Hget)].
  unfold handle_call_tool. cbn [String.eqb Ascii.eqb Bool.eqb].
  unfold sbind at 1, get_current_song, sbind at 1. rewrite Hget, Hstatus.
  destruct (api_content response) as [|c r] eqn:Hc; [contradiction|].
  cbn [Z.eqb Pos.eqb orb str_empty negb].
  unfold pure, api_response_json. rewrite Hjson.
  unfold obind at 1, now_playing.
  unfold py_get at 1. rewrite Hitem. unfold obind at 1.
  destruct track as [|kv track']; [contradiction|].
  cbn [py_truthy negb].
  unfold py_getitem at 1. rewrite Hitem. unfold obind at 1.
  unfold py_getitem at 1. rewrite Hartists. unfold obind at 1.
  rewrite Hnames. unfold obind at 1.
  rewrite Hprogress. unfold obind at 1.
  unfold py_getitem at 1. rewrite Hduration.
  destruct progress; try discriminate Hnum1;
    destruct duration; try discriminate Hnum2; try discriminate Hfloat;
    try match goal with |- context [PBool ?b] => destruct b end;
    try match goal with |- context [PBool ?b] => destruct b end;
    reflexivity.
Qed.

Lemma float_clock_raises_witness :
  handle_call_tool unquote_bytes test_repr (test_env None 200)
    (test_api (mkApiResponse 200 "data" "data" (Some float_sample)) error_reply)
    "get_current_song" None (session_of (stored old_tokens)) =
    (Failed (ValueError FLOAT_FORMAT_ERROR),
     mkSession
       (add_events [EvGet API_ME_URL (bearer (VStr "abc"))] (stored old_tokens))
       [ApiGet (SPOTIFY_API ++ "/me/player/currently-playing") None
          (bearer (VStr "abc"))]) /\
  exists token : value,
    api_calls
      (mkSession
         (add_events [EvGet API_ME_URL (bearer (VStr "abc"))] (stored old_tokens))
         [ApiGet (SPOTIFY_API ++ "/me/player/currently-playing") None
            (bearer (VStr "abc"))]) =
    api_calls (session_of (stored old_tokens))
    ++ [ApiGet (SPOTIFY_API ++ "/me/player/currently-playing") None
          (bearer token)].
Proof.
  eapply (float_clock_raises unquote_bytes test_repr (test_env None 200)
            (test_api (mkApiResponse 200 "data" "data" (Some float_sample))
               error_reply)
            None (session_of (stored old_tokens)) _
            (mkApiResponse 200 "data" "data" (Some float_sample)));
    try reflexivity; discriminate.
Defined.
